(** * yosai: the account-store realm and the native security manager

    A shallow embedding of [yosai/realm/realm.py] and
    [yosai/core/mgt/mgt.py].  Python objects become records, [None] becomes
    [option], exceptions become an error type threaded through a small
    state-and-exception monad, and every call to an injected collaborator
    (account store, cache, subject store, session, remember-me hooks) is
    recorded in the world so that ordering and call counts can be stated. *)

From stdpp Require Import gmap strings list.
From Stdlib Require Import Init.Byte.

Open Scope string_scope.
Open Scope list_scope.

(* ===================================================================== *)
(** ** Python runtime: exceptions, results, the effect monad             *)
(* ===================================================================== *)

Module Py.

(** An identifier collection (SimpleIdentifierCollection): the identifiers in
    iteration order; the first one is the primary identifier.  Like every
    Python collection it is falsy when empty. *)
Definition Ids := list string.

(** The exceptions the two modules raise or catch.  All of them derive from
    [Exception]; [BaseException]-only signals (KeyboardInterrupt, SystemExit)
    are outside the model.  The yosai exception classes are imported, not
    defined, by the two files; of AdditionalAuthenticationRequired spec
    section 7 says that it carries a partial account id, absent when the
    exception is built without arguments. *)
Inductive exn : Type :=
| AttributeError
| NameError
| UnboundLocalError
| TypeError
| ValueError
| IndexError
| StopIteration
| RuntimeError
| RealmMisconfiguredException
| IncorrectCredentialsException
| GetCachedCredentialsException
| CacheCredentialsException
| ClearCacheCredentialsException
| AuthenticationException
| AdditionalAuthenticationRequired (account_id : option Ids)
| InvalidSessionException
| OtherException (name : string).

#[global] Instance exn_eq_dec : EqDecision exn.
Proof. solve_decision. Defined.

Inductive result (A : Type) : Type :=
| Ok (a : A)
| Raise (e : exn).
Arguments Ok {A} a.
Arguments Raise {A} e.

(** A computation over a world [W]: the world a raising call leaves behind
    is kept, as Python keeps the mutations made before a raise. *)
Definition M (W A : Type) : Type := W -> result A * W.

Definition ret {W A} (a : A) : M W A := fun w => (Ok a, w).

Definition raise {W A} (e : exn) : M W A := fun w => (Raise e, w).

Definition bind {W A B} (m : M W A) (k : A -> M W B) : M W B :=
  fun w => match m w with
           | (Ok a, w') => k a w'
           | (Raise e, w') => (Raise e, w')
           end.

(** A pure fallible value used as a statement. *)
Definition lift {W A} (r : result A) : M W A := fun w => (r, w).

(** [try: m  except <the exceptions h maps to Some>: handler]. *)
Definition try_except {W A} (m : M W A) (h : exn -> option (M W A)) : M W A :=
  fun w => match m w with
           | (Ok a, w') => (Ok a, w')
           | (Raise e, w') =>
               match h e with
               | Some k => k w'
               | None => (Raise e, w')
               end
           end.

(** [try: m  finally: f]: [f] always runs; when [f] raises, its exception
    replaces whatever [m] produced. *)
Definition try_finally {W A} (m : M W A) (f : M W unit) : M W A :=
  fun w => match m w with
           | (r, w') =>
               match f w' with
               | (Ok _, w'') => (r, w'')
               | (Raise e, w'') => (Raise e, w'')
               end
           end.

Definition modify {W} (f : W -> W) : M W unit := fun w => (Ok tt, f w).

Definition get {W} : M W W := fun w => (Ok w, w).

(** Attribute access on a reference that may be [None]. *)
Definition attr {W A} (o : option A) : M W A :=
  match o with
  | Some a => ret a
  | None => raise AttributeError
  end.

(** A generator run to exhaustion: the items it yielded, in order, and how
    it ended ([Ok tt] for a normal end, [Raise e] when the consumer's [next]
    raised [e]). *)
Definition Gen (A : Type) : Type := list A * result unit.

(** PEP 479 (the rule of Python 3.7 and later): an exception leaves the
    frame of a generator as it is, except StopIteration, which the
    interpreter replaces by RuntimeError. *)
Definition leaving_generator (e : exn) : exn :=
  match e with
  | StopIteration => RuntimeError
  | _ => e
  end.

End Py.

Export Py.

Declare Scope py_scope.
Delimit Scope py_scope with py.
Notation "x <- m ;; k" := (bind m (fun x => k))
  (at level 100, m at next level, right associativity) : py_scope.
Notation "m ;;; k" := (bind m (fun _ => k))
  (at level 100, right associativity) : py_scope.
Open Scope py_scope.

(* ===================================================================== *)
(** ** realm.py: AccountStoreRealm and DefaultCredentialsCacheHandler    *)
(* ===================================================================== *)

Module Realm.

(** *** Module namespace

    A name that is neither a parameter nor assigned in a function body is
    looked up among the module's globals: the names bound by the [import]
    statements and the two class statements of realm.py. *)

Inductive GlobalObj : Type :=
| GClass (name : string)
| GModule (name : string).

Definition module_globals : list (string * GlobalObj) :=
  [ ("AccountStoreRealmAuthenticationException",
     GClass "AccountStoreRealmAuthenticationException");
    ("CacheCredentialsException", GClass "CacheCredentialsException");
    ("ClearCacheCredentialsException", GClass "ClearCacheCredentialsException");
    ("GetCachedCredentialsException", GClass "GetCachedCredentialsException");
    ("IllegalArgumentException", GClass "IllegalArgumentException");
    ("IncorrectCredentialsException", GClass "IncorrectCredentialsException");
    ("LogManager", GClass "LogManager");
    ("PasswordMatcher", GClass "PasswordMatcher");
    ("RealmMisconfiguredException", GClass "RealmMisconfiguredException");
    ("UsernamePasswordToken", GClass "UsernamePasswordToken");
    ("authz_abcs", GModule "authz_abcs");
    ("realm_abcs", GModule "realm_abcs");
    ("itertools", GModule "itertools");
    ("AccountStoreRealm", GClass "AccountStoreRealm");
    ("DefaultCredentialsCacheHandler", GClass "DefaultCredentialsCacheHandler") ].

Fixpoint assoc {A} (n : string) (l : list (string * A)) : option A :=
  match l with
  | [] => None
  | (k, v) :: l' => if decide (k = n) then Some v else assoc n l'
  end.

(** LOAD_GLOBAL: an unbound name raises NameError. *)
Definition load_global (n : string) : result GlobalObj :=
  match assoc n module_globals with
  | Some o => Ok o
  | None => Raise NameError
  end.

(** *** Data *)

(** An authentication token (UsernamePasswordToken, imported from yosai):
    [identifier] names the principal.  A token object is truthy. *)
Record Token : Type := mkToken {
  identifier : string;
  credentials : string
}.

(** An account as the account store returns it (spec section 3: an opaque
    bundle with the identifier of the principal).  An account object is
    truthy; only [None] is falsy. *)
Record Account : Type := mkAccount {
  account_id : string;
  account_credentials : string
}.

#[global] Instance Token_eq_dec : EqDecision Token.
Proof. solve_decision. Defined.

#[global] Instance Account_eq_dec : EqDecision Account.
Proof. solve_decision. Defined.

(** The [identifiers] argument of the authorization methods: a plain string
    or an identifier-collection object.  [str + identifiers] is defined for
    the former only; for an object without [__radd__] it raises TypeError. *)
Inductive Identifiers : Type :=
| IdStr (s : string)
| IdCollection (ids : Ids).

Definition str_concat (prefix : string) (identifiers : Identifiers)
  : result string :=
  match identifiers with
  | IdStr s => Ok (prefix ++ s)%string
  | IdCollection _ => Raise TypeError
  end.

(** The Permission interface (authz_abcs.Permission): a permission has a
    [domain], an iterable of domain names given here in iteration order,
    and decides whether it [implies] another permission. *)
Class Permission (P : Type) : Type := {
  perm_eq_dec :: EqDecision P;
  domain : P -> list string;
  implies : P -> P -> bool
}.

(** Python's truthiness of an optional string key: [None] and the empty
    string are falsy. *)
Definition truthy_key (k : option string) : bool :=
  match k with
  | Some s => negb (bool_decide (s = ""))
  | None => false
  end.

Section WithPermission.

Context {P : Type} `{Permission P}.

(** Modelled from the spec: IndexedAuthorizationInfo is imported by no
    statement of realm.py and defined nowhere under src/; spec section 3
    gives it [roleIds], a set of strings, and [permissions], a collection
    indexed by a domain key.  [get_permission] returns what is stored under
    a domain, nothing for a domain without entries.  A Python set keeps
    no order: the lists stand for one iteration order, and the verdicts
    below do not depend on it. *)
Record AuthorizationInfo : Type := mkAuthorizationInfo {
  roleids : gset string;
  permissions : gmap string (list P)
}.

(** Modelled from the spec: [get_permission] of the absent
    IndexedAuthorizationInfo, the permissions stored under one domain key
    (spec sections 3 and 4.4). *)
Definition get_permission (authz_info : AuthorizationInfo) (d : string)
  : list P :=
  default [] (permissions authz_info !! d).

(** What [account_store.get_authz_info] returns: an object with [roles] and
    [permissions] attributes. *)
Record AuthzAccount : Type := mkAuthzAccount {
  roles : gset string;
  account_permissions : gmap string (list P)
}.

(** Calls made to the account store, in order. *)
Inductive StoreCall : Type :=
| GetAccount (authc_token : option Token)
| GetAuthzInfo (identifiers : Identifiers).

(** The world of a realm: the contents of the credentials cache the cache
    resolver hands out, the contents of the authorization cache, and the
    calls made to the account store so far. *)
Record World : Type := mkWorld {
  credentials_cache : gmap string Account;
  authorization_cache : gmap string AuthorizationInfo;
  store_calls : list StoreCall
}.

Definition set_credentials_cache (c : gmap string Account) (w : World)
  : World :=
  mkWorld c (authorization_cache w) (store_calls w).

Definition set_authorization_cache (c : gmap string AuthorizationInfo)
  (w : World) : World :=
  mkWorld (credentials_cache w) c (store_calls w).

Definition record_call (c : StoreCall) (w : World) : World :=
  mkWorld (credentials_cache w) (authorization_cache w) (store_calls w ++ [c]).

(** *** Collaborators *)

(** AccountStore: both queries may raise; no matching record is [None]. *)
Record AccountStore : Type := mkAccountStore {
  get_account : option Token -> result (option Account);
  get_authz_info : Identifiers -> result AuthzAccount
}.

(** The keyword arguments the resolvers are called with. *)
Record ResolverArgs : Type := mkArgs {
  arg_authc_token : option Token;
  arg_account : option Account;
  arg_account_id : option string
}.

(** CacheResolver.get_cache: [true] when it hands back the cache, [false]
    when it returns None. *)
Record CacheResolver : Type := mkCacheResolver {
  get_cache : ResolverArgs -> bool
}.

(** CacheKeyResolver.get_cache_key: the key, or None. *)
Record CacheKeyResolver : Type := mkCacheKeyResolver {
  get_cache_key : ResolverArgs -> option string
}.

Record DefaultCredentialsCacheHandler : Type := mkCredentialsCacheHandler {
  credentials_cache_resolver : option CacheResolver;
  credentials_cache_key_resolver : option CacheKeyResolver
}.

(** The authorization cache handler (realm_abcs interface; its
    implementation is not part of realm.py): the two methods
    get_authorization_info calls on it. *)
Record AuthorizationCacheHandler : Type := mkAuthorizationCacheHandler {
  get_cached_authorization_info :
    Identifiers -> M World (option AuthorizationInfo);
  cache_authorization_info :
    Identifiers -> AuthorizationInfo -> M World unit
}.

(** An element of the [permission_s] argument: a string or a Permission. *)
Inductive PermArg : Type :=
| VStr (s : string)
| VPerm (p : P).

(** The [permission_s] argument itself: a list supports [permission_s[0]];
    a set does not. *)
Inductive PermColl : Type :=
| PyList (l : list PermArg)
| PySet (l : list PermArg).

Record AccountStoreRealm : Type := mkRealm {
  account_store : option AccountStore;
  credentials_matcher : option Token -> option Account -> bool;
  credentials_cache_handler : option DefaultCredentialsCacheHandler;
  authorization_cache_handler : option AuthorizationCacheHandler;
  permission_resolver : option (PermArg -> result P)
}.

(** *** DefaultCredentialsCacheHandler *)

(** [cache.get(key)] on the cache object, AttributeError on None;
    a None key has no entry. *)
Definition cache_get (cache : bool) (key : option string)
  : M World (option Account) :=
  if cache
  then w <- get ;; ret (k ← key; credentials_cache w !! k)
  else raise AttributeError.

Definition cache_put (cache : bool) (key : string) (account : Account)
  : M World unit :=
  if cache
  then modify (fun w => set_credentials_cache
                          (<[key := account]> (credentials_cache w)) w)
  else raise AttributeError.

Definition cache_remove (cache : bool) (key : string)
  : M World (option Account) :=
  if cache
  then w <- get ;;
       modify (fun w => set_credentials_cache
                          (delete key (credentials_cache w)) w) ;;;
       ret (credentials_cache w !! key)
  else raise AttributeError.

Definition on_AttributeError {A} (e' : exn) (e : exn)
  : option (M World A) :=
  match e with
  | AttributeError => Some (raise e')
  | _ => None
  end.

Definition get_cached_credentials (h : DefaultCredentialsCacheHandler)
  (authc_token : option Token) : M World (option Account) :=
  let args := mkArgs authc_token None None in
  try_except
    (cr <- attr (credentials_cache_resolver h) ;;
     let cache := get_cache cr args in
     kr <- attr (credentials_cache_key_resolver h) ;;
     let key := get_cache_key kr args in
     cache_get cache key)
    (on_AttributeError GetCachedCredentialsException).

Definition cache_credentials (h : DefaultCredentialsCacheHandler)
  (authc_token : option Token) (account : Account) : M World unit :=
  let args := mkArgs authc_token (Some account) None in
  try_except
    (cr <- attr (credentials_cache_resolver h) ;;
     let cache := get_cache cr args in
     kr <- attr (credentials_cache_key_resolver h) ;;
     let key := get_cache_key kr args in
     if truthy_key key
     then cache_put cache (default "" key) account
     else raise CacheCredentialsException)
    (on_AttributeError CacheCredentialsException).

Definition handler_clear_cached_credentials
  (h : DefaultCredentialsCacheHandler) (account_id : string)
  : M World (option Account) :=
  let args := mkArgs None None (Some account_id) in
  try_except
    (cr <- attr (credentials_cache_resolver h) ;;
     let cache := get_cache cr args in
     kr <- attr (credentials_cache_key_resolver h) ;;
     let key := get_cache_key kr args in
     if truthy_key key
     then cache_remove cache (default "" key)
     else if cache then ret None
          else raise ClearCacheCredentialsException)
    (on_AttributeError ClearCacheCredentialsException).

(** *** AccountStoreRealm: cache clearing *)

(** [cch.clear_cache(identifiers)]: [cch] is no parameter and no local of
    this method, so it is a global lookup.  Were the name bound, it would
    be to one of the classes or modules above, none of which has a
    [clear_cache] attribute. *)
Definition clear_cached_credentials (self : AccountStoreRealm)
  (identifiers : string) : M World unit :=
  _ <- lift (load_global "cch") ;;
  raise AttributeError.

(** [ach.clear_cache(identifiers)], with [ach] looked up the same way. *)
Definition clear_cached_authorization_info (self : AccountStoreRealm)
  (identifiers : string) : M World unit :=
  _ <- lift (load_global "ach") ;;
  raise AttributeError.

Definition do_clear_cache (self : AccountStoreRealm) (identifiers : string)
  : M World unit :=
  clear_cached_credentials self identifiers ;;;
  clear_cached_authorization_info self identifiers.

(** *** AccountStoreRealm: authentication *)

(** [self.account_store.get_account(authc_token)]: AttributeError when no
    account store is set; otherwise the call is recorded. *)
Definition store_get_account (self : AccountStoreRealm)
  (authc_token : option Token) : M World (option Account) :=
  st <- attr (account_store self) ;;
  modify (record_call (GetAccount authc_token)) ;;;
  lift (get_account st authc_token).

(** The [print] calls only write messages and are left out. *)
Definition get_credentials (self : AccountStoreRealm)
  (authc_token : option Token) : M World (option Account) :=
  let cch := credentials_cache_handler self in
  account <- match cch with
             | Some h => get_cached_credentials h authc_token
             | None => ret None
             end ;;
  match account with
  | None =>
      account <- try_except (store_get_account self authc_token)
                   (on_AttributeError RealmMisconfiguredException) ;;
      match authc_token, account with
      | Some _, Some a =>
          match cch with
          | Some h => cache_credentials h authc_token a
          | None => ret tt
          end ;;;
          ret account
      | _, _ => ret account
      end
  | Some a => ret (Some a)
  end.

Definition assert_credentials_match (self : AccountStoreRealm)
  (authc_token : option Token) (account : option Account) : M World unit :=
  if credentials_matcher self authc_token account
  then ret tt
  else raise IncorrectCredentialsException.

Definition authenticate_account (self : AccountStoreRealm)
  (authc_token : option Token) : M World (option Account) :=
  account <- get_credentials self authc_token ;;
  assert_credentials_match self authc_token account ;;;
  tok <- attr authc_token ;;
  clear_cached_credentials self (identifier tok) ;;;
  ret account.

(** *** AccountStoreRealm: authorization *)

Definition store_get_authz_info (self : AccountStoreRealm)
  (identifiers : Identifiers) : M World AuthzAccount :=
  st <- attr (account_store self) ;;
  modify (record_call (GetAuthzInfo identifiers)) ;;;
  lift (get_authz_info st identifiers).

(** With a cache handler, both outcomes of the cache lookup build their
    trace message as [str + identifiers + str].  On a miss the account is
    fetched and then the name [IndexedAuthorizationInfo] is looked up, which
    realm.py never binds; the lines after it are given as written. *)
Definition get_authorization_info (self : AccountStoreRealm)
  (identifiers : Identifiers) : M World AuthorizationInfo :=
  let ach := authorization_cache_handler self in
  authz_info <- match ach with
                | Some h =>
                    ai <- get_cached_authorization_info h identifiers ;;
                    _ <- lift (str_concat "identifiers [" identifiers) ;;
                    ret ai
                | None => ret None
                end ;;
  match authz_info with
  | Some ai => ret ai
  | None =>
      account <- store_get_authz_info self identifiers ;;
      _ <- lift (load_global "IndexedAuthorizationInfo") ;;
      let authz_info :=
        mkAuthorizationInfo (roles account) (account_permissions account) in
      match ach with
      | Some h =>
          _ <- lift (str_concat "identifiers: [" identifiers) ;;
          cache_authorization_info h identifiers authz_info
      | None => ret tt
      end ;;;
      ret authz_info
  end.

(** [frozenset(itertools.chain(a, b))]: the distinct elements of both. *)
Definition frozenset_chain (a b : list P) : list P := remove_dups (a ++ b).

(** The [try] block of get_authzd_permissions.  [next(iter(domain))] raises
    StopIteration on an empty domain; a string has no [domain] attribute and
    None has no [get_permission]. *)
Definition related_perms (authz_info : option AuthorizationInfo)
  (permission : PermArg) : result (list P * list P) :=
  match authz_info with
  | None => Raise AttributeError
  | Some ai =>
      let wildcard_perms := get_permission ai "*" in
      match permission with
      | VStr _ => Raise AttributeError
      | VPerm p =>
          match domain p with
          | [] => Raise StopIteration
          | requested_domain :: _ =>
              Ok (wildcard_perms, get_permission ai requested_domain)
          end
      end
  end.

(** [except TypeError: pass] leaves [domain_perms] unbound, so the return
    statement raises UnboundLocalError; other exceptions propagate. *)
Definition get_authzd_permissions (authz_info : option AuthorizationInfo)
  (permission : PermArg) : result (list P) :=
  match related_perms authz_info permission with
  | Ok (wildcard_perms, domain_perms) =>
      Ok (frozenset_chain wildcard_perms domain_perms)
  | Raise TypeError => Raise UnboundLocalError
  | Raise e => Raise e
  end.

(** The set comprehension of resolve_permissions, element by element. *)
Fixpoint resolve_each (resolver : option (PermArg -> result P))
  (string_perms : list PermArg) : result (list P) :=
  match string_perms with
  | [] => Ok []
  | perm :: rest =>
      match resolver with
      | None => Raise AttributeError
      | Some resolve_permission =>
          match resolve_permission perm with
          | Raise e => Raise e
          | Ok p =>
              match resolve_each resolver rest with
              | Ok ps => Ok (p :: ps)
              | Raise e => Raise e
              end
          end
      end
  end.

Definition resolve_permissions (self : AccountStoreRealm)
  (string_perms : list PermArg) : result (list P) :=
  match resolve_each (permission_resolver self) string_perms with
  | Ok perms => Ok (remove_dups perms)
  | Raise AttributeError => Ok []
  | Raise TypeError => Ok []
  | Raise e => Raise e
  end.

(** [permission_s[0]]. *)
Definition first_element (permission_s : PermColl) : result PermArg :=
  match permission_s with
  | PyList [] => Raise IndexError
  | PyList (x :: _) => Ok x
  | PySet _ => Raise TypeError
  end.

Definition elements_of (permission_s : PermColl) : list PermArg :=
  match permission_s with
  | PyList l => l
  | PySet l => l
  end.

(** The first statement of is_permitted: the value of [requested_perms]. *)
Definition requested_perms (self : AccountStoreRealm)
  (permission_s : PermColl) : result (list PermArg) :=
  match first_element permission_s with
  | Raise e => Raise e
  | Ok (VStr _) =>
      match resolve_permissions self (elements_of permission_s) with
      | Ok perms => Ok (VPerm <$> perms)
      | Raise e => Raise e
      end
  | Ok (VPerm _) => Ok (elements_of permission_s)
  end.

(** The inner loop of is_permitted with its [break]: the flag, and the
    authorized permissions whose [implies] was evaluated. *)
Fixpoint scan_authorized (authorized_perms : list P) (reqstd_perm : P)
  : bool * list P :=
  match authorized_perms with
  | [] => (false, [])
  | authz_perm :: rest =>
      if implies authz_perm reqstd_perm
      then (true, [authz_perm])
      else let '(b, seen) := scan_authorized rest reqstd_perm in
           (b, authz_perm :: seen)
  end.

(** The outer loop.  get_authzd_permissions raises on a string element, so
    the inner loop is only ever entered with a Permission.  What
    get_authzd_permissions raises leaves the generator's frame. *)
Fixpoint is_permitted_loop (authz_info : AuthorizationInfo)
  (reqs : list PermArg) : Gen (PermArg * bool) :=
  match reqs with
  | [] => ([], Ok tt)
  | reqstd_perm :: rest =>
      match get_authzd_permissions (Some authz_info) reqstd_perm,
            reqstd_perm with
      | Raise e, _ => ([], Raise (leaving_generator e))
      | Ok _, VStr _ => ([], Raise AttributeError)
      | Ok authorized_perms, VPerm p =>
          let is_permitted := fst (scan_authorized authorized_perms p) in
          let '(ys, st) := is_permitted_loop authz_info rest in
          ((reqstd_perm, is_permitted) :: ys, st)
      end
  end.

(** The generator, run to exhaustion. *)
Definition is_permitted (self : AccountStoreRealm)
  (identifiers : Identifiers) (permission_s : PermColl)
  : World -> Gen (PermArg * bool) * World :=
  fun w =>
    match requested_perms self permission_s with
    | Raise e => (([], Raise (leaving_generator e)), w)
    | Ok reqs =>
        match get_authorization_info self identifiers w with
        | (Raise e, w') => (([], Raise (leaving_generator e)), w')
        | (Ok authz_info, w') => (is_permitted_loop authz_info reqs, w')
        end
    end.

(** [roleid_s <= authz_info.roleids] on sets. *)
Definition has_all_roles (self : AccountStoreRealm)
  (identifiers : Identifiers) (roleid_s : gset string) : M World bool :=
  authz_info <- get_authorization_info self identifiers ;;
  ret (bool_decide (roleid_s ⊆ roleids authz_info)).

(** The generator has_role, run to exhaustion: one pair per role id of the
    set, in the set's iteration order; [{roleid} <= roleids] is membership. *)
Definition has_role (self : AccountStoreRealm)
  (identifiers : Identifiers) (roleid_s : gset string)
  : World -> Gen (string * bool) * World :=
  fun w =>
    match get_authorization_info self identifiers w with
    | (Raise e, w') => (([], Raise (leaving_generator e)), w')
    | (Ok authz_info, w') =>
        let authzinfo_roleids := roleids authz_info in
        ((fun roleid =>
            (roleid, bool_decide ({[ roleid ]} ⊆ authzinfo_roleids)))
           <$> elements roleid_s,
         Ok tt, w')
    end.

End WithPermission.

End Realm.

(* ===================================================================== *)
(** ** mgt.py: AbstractRememberMeManager and NativeSecurityManager       *)
(* ===================================================================== *)

Module Mgt.

(** A reference to a Subject object.  Subjects are mutable and passed by
    reference, so they live in a heap. *)
Definition loc := nat.

Definition bytes := list byte.

Record Token : Type := mkToken {
  token_identifier : string;
  is_remember_me : bool
}.

(** Modelled from the spec: DelegatingSubject is imported from yosai.core
    and not under src/; spec section 3 gives a Subject its identifiers, the
    authenticated and remembered flags, a host and an optional session.
    [session] is what [get_session(False)] returns: the existing session,
    if any. *)
Record Subject : Type := mkSubject {
  identifiers : option Ids;
  authenticated : bool;
  remembered : bool;
  host : option string;
  session : option string;
  session_creation_enabled : bool
}.

#[global] Instance Subject_inhabited : Inhabited Subject :=
  populate (mkSubject None false false None None false).

(** Modelled from the spec: SubjectContext is imported from yosai.core and
    not under src/; spec section 3 lists the attributes of this bag for one
    resolution pass. *)
Record SubjectContext : Type := mkContext {
  ctx_security_manager : bool;
  ctx_session : option string;
  ctx_session_id : option string;
  ctx_identifiers : option Ids;
  ctx_authenticated : bool;
  ctx_remembered : bool;
  ctx_host : option string;
  ctx_authentication_token : option Token;
  ctx_account_id : option Ids;
  ctx_subject : option loc;
  ctx_session_creation_enabled : bool
}.

(** What a remember-me hook is handed: login and logout pass the subject,
    the retrieval-failure path passes the subject context. *)
Inductive Target : Type :=
| OfSubject (subject : loc)
| OfContext (subject_context : SubjectContext).

(** Calls to collaborators and to the storage-specific hooks, in order. *)
Inductive Event : Type :=
| Authenticate (identifiers : option Ids) (authc_token : option Token)
| ForgetIdentity (target : Target)
| RememberEncryptedIdentity (subject : loc) (encrypted : bytes)
| GetRememberedEncryptedIdentity (subject_context : SubjectContext)
| Save (subject : loc) (state : Subject)
| Delete (subject : loc)
| ManagerGetSession (session_key : string)
| SubjectGetSession (subject : loc)
| SessionStop (session : string) (identifiers : option Ids).

Record World : Type := mkWorld {
  heap : gmap loc Subject;
  log : list Event
}.

Definition record_event (e : Event) (w : World) : World :=
  mkWorld (heap w) (log w ++ [e]).

Definition set_heap (h : gmap loc Subject) (w : World) : World :=
  mkWorld h (log w).

(** A call that returns nothing: [None] when it returns, [Some e] when it
    raises [e]. *)
Definition outcome (o : option exn) : M World unit :=
  match o with
  | None => ret tt
  | Some e => raise e
  end.

(** Truthiness of an optional identifier collection and of optional bytes. *)
Definition truthy_ids (i : option Ids) : bool :=
  match i with
  | Some (_ :: _) => true
  | _ => false
  end.

Definition truthy_bytes (b : option bytes) : bool :=
  match b with
  | Some (_ :: _) => true
  | _ => false
  end.

(** [except Exception]: every exception of the model is handled. *)
Definition swallow {A} (a : A) (e : exn) : option (M World A) :=
  Some (ret a).

(** [except AuthenticationException]: the class and its subclasses. *)
Definition is_authentication_exception (e : exn) : bool :=
  match e with
  | AuthenticationException => true
  | IncorrectCredentialsException => true
  | AdditionalAuthenticationRequired _ => true
  | _ => false
  end.

(** *** Collaborators *)

Record SerializationManager : Type := mkSerializationManager {
  serialize : option Ids -> result bytes;
  deserialize : bytes -> result (option Ids)
}.

(** cryptography.fernet.Fernet, keyed. *)
Record Fernet : Type := mkFernet {
  encrypt_with : bytes -> bytes -> result bytes;
  decrypt_with : bytes -> bytes -> result bytes
}.

(** A remember-me manager: the three abstract hooks a storage-specific
    subclass supplies, and the attributes of AbstractRememberMeManager. *)
Record RememberMeManager : Type := mkRememberMeManager {
  forget_identity_hook : Target -> option exn;
  remember_encrypted_identity_hook : loc -> bytes -> option exn;
  get_remembered_encrypted_identity_hook :
    SubjectContext -> result (option bytes);
  serialization_manager : option SerializationManager;
  encryption_cipher_key : bytes;
  decryption_cipher_key : bytes;
  fernet : Fernet
}.

Record Authenticator : Type := mkAuthenticator {
  authenticator_authenticate_account :
    option Ids -> option Token -> result (option Ids)
}.

Record SubjectStore : Type := mkSubjectStore {
  store_save : loc -> Subject -> option exn;
  store_delete : loc -> Subject -> option exn
}.

(** The session manager, and the [stop] method of the sessions it owns. *)
Record SessionManager : Type := mkSessionManager {
  manager_get_session : string -> result (option string);
  session_stop : string -> option Ids -> option exn
}.

(** The SubjectContext class (imported from yosai.core): its constructor
    and the resolve methods the security manager calls. *)
Record SubjectContextClass : Type := mkSubjectContextClass {
  new_context : SubjectContext;
  ctx_resolve_security_manager : SubjectContext -> bool;
  ctx_resolve_session : SubjectContext -> option string;
  ctx_resolve_identifiers :
    SubjectContext -> option string -> gmap loc Subject -> option Ids;
  ctx_resolve_authenticated : SubjectContext -> option string -> bool;
  ctx_resolve_host : SubjectContext -> option string -> option string
}.

Record SecurityManager : Type := mkSecurityManager {
  remember_me_manager : option RememberMeManager;
  authenticator : Authenticator;
  subject_store : SubjectStore;
  session_manager : SessionManager;
  subject_context_class : SubjectContextClass
}.

(** *** AbstractRememberMeManager *)

Module AbstractRememberMeManager.

Definition forget_identity (self : RememberMeManager) (target : Target)
  : M World unit :=
  modify (record_event (ForgetIdentity target)) ;;;
  outcome (forget_identity_hook self target).

Definition remember_encrypted_identity (self : RememberMeManager)
  (subject : loc) (encrypted : bytes) : M World unit :=
  modify (record_event (RememberEncryptedIdentity subject encrypted)) ;;;
  outcome (remember_encrypted_identity_hook self subject encrypted).

Definition get_remembered_encrypted_identity (self : RememberMeManager)
  (subject_context : SubjectContext) : M World (option bytes) :=
  modify (record_event (GetRememberedEncryptedIdentity subject_context)) ;;;
  lift (get_remembered_encrypted_identity_hook self subject_context).

Definition encrypt (self : RememberMeManager) (serialized : bytes)
  : M World bytes :=
  lift (encrypt_with (fernet self) (encryption_cipher_key self) serialized).

Definition decrypt (self : RememberMeManager) (encrypted : bytes)
  : M World bytes :=
  lift (decrypt_with (fernet self) (decryption_cipher_key self) encrypted).

Definition get_identity_to_remember (self : RememberMeManager)
  (subject : loc) (account_id : option Ids) : M World (option Ids) :=
  ret account_id.

Definition convert_identifiers_to_bytes (self : RememberMeManager)
  (identifiers : option Ids) : M World bytes :=
  sm <- attr (serialization_manager self) ;;
  serialized <- lift (serialize sm identifiers) ;;
  encrypt self serialized.

Definition remember_identity (self : RememberMeManager) (subject : loc)
  (authc_token : option Token) (account_id : option Ids) : M World unit :=
  identifiers <- try_except (get_identity_to_remember self subject account_id)
                   (fun e => match e with
                             | AttributeError => Some (raise AttributeError)
                             | _ => None
                             end) ;;
  encrypted <- convert_identifiers_to_bytes self identifiers ;;
  remember_encrypted_identity self subject encrypted.

Definition on_successful_login (self : RememberMeManager) (subject : loc)
  (authc_token : option Token) (account_id : option Ids) : M World unit :=
  forget_identity self (OfSubject subject) ;;;
  tok <- attr authc_token ;;
  if is_remember_me tok
  then remember_identity self subject authc_token account_id
  else ret tt.

Definition convert_bytes_to_identifiers (self : RememberMeManager)
  (encrypted : bytes) (subject_context : SubjectContext)
  : M World (option Ids) :=
  decrypted <- decrypt self encrypted ;;
  sm <- attr (serialization_manager self) ;;
  lift (deserialize sm decrypted).

Definition on_remembered_identifiers_failure (self : RememberMeManager)
  (exc : exn) (subject_context : SubjectContext) : M World (option Ids) :=
  forget_identity self (OfContext subject_context) ;;;
  raise exc.

(** The [try] block of get_remembered_identifiers: fetch, then decrypt and
    deserialize what was fetched, if anything. *)
Definition fetch_and_convert (self : RememberMeManager)
  (subject_context : SubjectContext) : M World (option Ids) :=
  encrypted <- get_remembered_encrypted_identity self subject_context ;;
  if truthy_bytes encrypted
  then convert_bytes_to_identifiers self (default [] encrypted)
         subject_context
  else ret None.

Definition get_remembered_identifiers (self : RememberMeManager)
  (subject_context : SubjectContext) : M World (option Ids) :=
  try_except (fetch_and_convert self subject_context)
    (fun ex => Some (on_remembered_identifiers_failure self ex subject_context)).

Definition on_failed_login (self : RememberMeManager) (subject : loc)
  (authc_token : option Token) (ae : exn) : M World unit :=
  forget_identity self (OfSubject subject).

Definition on_logout (self : RememberMeManager) (subject : loc)
  : M World unit :=
  forget_identity self (OfSubject subject).

End AbstractRememberMeManager.

(** *** NativeSecurityManager *)

Module NativeSecurityManager.

Definition save (self : SecurityManager) (subject : loc) : M World unit :=
  w <- get ;;
  let state := heap w !!! subject in
  modify (record_event (Save subject state)) ;;;
  outcome (store_save (subject_store self) subject state).

Definition delete (self : SecurityManager) (subject : loc) : M World unit :=
  w <- get ;;
  let state := heap w !!! subject in
  modify (record_event (Delete subject)) ;;;
  outcome (store_delete (subject_store self) subject state).

Definition get_session (self : SecurityManager) (session_key : string)
  : M World (option string) :=
  modify (record_event (ManagerGetSession session_key)) ;;;
  lift (manager_get_session (session_manager self) session_key).

(** [subject.identifiers = account_id] *)
Definition set_identifiers (account_id : option Ids) (s : Subject)
  : Subject :=
  mkSubject account_id (authenticated s) (remembered s) (host s) (session s)
    (session_creation_enabled s).

Definition update_subject_identity (self : SecurityManager)
  (account_id : option Ids) (subject : loc) : M World loc :=
  modify (fun w => set_heap (<[subject := set_identifiers account_id
                                            (heap w !!! subject)]> (heap w)) w) ;;;
  save self subject ;;;
  ret subject.

Definition remember_me_successful_login (self : SecurityManager)
  (authc_token : option Token) (account_id : option Ids) (subject : loc)
  : M World unit :=
  match remember_me_manager self with
  | Some rmm =>
      try_except
        (AbstractRememberMeManager.on_successful_login rmm subject
           authc_token account_id)
        (swallow tt)
  | None => ret tt
  end.

Definition remember_me_failed_login (self : SecurityManager)
  (authc_token : option Token) (authc_exc : exn) (subject : loc)
  : M World unit :=
  match remember_me_manager self with
  | Some rmm =>
      try_except
        (AbstractRememberMeManager.on_failed_login rmm subject authc_token
           authc_exc)
        (swallow tt)
  | None => ret tt
  end.

Definition remember_me_logout (self : SecurityManager) (subject : loc)
  : M World unit :=
  match remember_me_manager self with
  | Some rmm =>
      try_except (AbstractRememberMeManager.on_logout rmm subject)
        (swallow tt)
  | None => ret tt
  end.

Definition on_successful_login (self : SecurityManager)
  (authc_token : option Token) (account_id : option Ids) (subject : loc)
  : M World unit :=
  remember_me_successful_login self authc_token account_id subject.

Definition on_failed_login (self : SecurityManager)
  (authc_token : option Token) (authc_exc : exn) (subject : loc)
  : M World unit :=
  remember_me_failed_login self authc_token authc_exc subject.

Definition before_logout (self : SecurityManager) (subject : loc)
  : M World unit :=
  remember_me_logout self subject.

(** [SubjectContext(self.yosai, self)]; [yosai] is set by [__init__], so
    the [hasattr] guard never fires. *)
Definition create_subject_context (self : SecurityManager)
  (existing_subject : option loc) : SubjectContext :=
  new_context (subject_context_class self).

Definition ensure_security_manager (self : SecurityManager)
  (c : SubjectContext) : SubjectContext :=
  if ctx_resolve_security_manager (subject_context_class self) c
  then c
  else mkContext true (ctx_session c) (ctx_session_id c) (ctx_identifiers c)
         (ctx_authenticated c) (ctx_remembered c) (ctx_host c)
         (ctx_authentication_token c) (ctx_account_id c) (ctx_subject c)
         (ctx_session_creation_enabled c).

Definition get_session_key (self : SecurityManager) (c : SubjectContext)
  : option string :=
  ctx_session_id c.

Definition resolve_context_session (self : SecurityManager)
  (c : SubjectContext) : M World (option string) :=
  match get_session_key self c with
  | Some session_key => get_session self session_key
  | None => ret None
  end.

Definition set_session (session : option string) (c : SubjectContext)
  : SubjectContext :=
  mkContext (ctx_security_manager c) session (ctx_session_id c)
    (ctx_identifiers c) (ctx_authenticated c) (ctx_remembered c) (ctx_host c)
    (ctx_authentication_token c) (ctx_account_id c) (ctx_subject c)
    (ctx_session_creation_enabled c).

Definition resolve_session (self : SecurityManager) (c : SubjectContext)
  : M World SubjectContext :=
  match ctx_resolve_session (subject_context_class self) c with
  | Some _ => ret c
  | None =>
      try_except
        (session <- resolve_context_session self c ;;
         ret (set_session session c))
        (fun e => match e with
                  | InvalidSessionException => Some (ret c)
                  | _ => None
                  end)
  end.

Definition get_remembered_identity (self : SecurityManager)
  (c : SubjectContext) : M World (option Ids) :=
  match remember_me_manager self with
  | Some rmm =>
      try_except (AbstractRememberMeManager.get_remembered_identifiers rmm c)
        (swallow None)
  | None => ret None
  end.

(** [subject_context.identifiers = identifiers] and
    [subject_context.remembered = True] *)
Definition set_remembered_identifiers (identifiers : option Ids)
  (c : SubjectContext) : SubjectContext :=
  mkContext (ctx_security_manager c) (ctx_session c) (ctx_session_id c)
    identifiers (ctx_authenticated c) true (ctx_host c)
    (ctx_authentication_token c) (ctx_account_id c) (ctx_subject c)
    (ctx_session_creation_enabled c).

Definition resolve_identifiers (self : SecurityManager) (c : SubjectContext)
  : M World SubjectContext :=
  w <- get ;;
  let session := ctx_session c in
  let identifiers :=
    ctx_resolve_identifiers (subject_context_class self) c session (heap w) in
  if truthy_ids identifiers
  then ret c
  else
    identifiers <- get_remembered_identity self c ;;
    if truthy_ids identifiers
    then ret (set_remembered_identifiers identifiers c)
    else ret c.

(** [DelegatingSubject(...)]: a new object on the heap. *)
Definition do_create_subject (self : SecurityManager) (c : SubjectContext)
  : M World loc :=
  w <- get ;;
  let cls := subject_context_class self in
  let session := ctx_resolve_session cls c in
  let subject :=
    mkSubject (ctx_resolve_identifiers cls c session (heap w))
      (ctx_resolve_authenticated cls c session)
      (ctx_remembered c)
      (ctx_resolve_host cls c session)
      session
      (ctx_session_creation_enabled c) in
  let l := fresh (dom (heap w)) in
  modify (set_heap (<[l := subject]> (heap w))) ;;;
  ret l.

(** The context of the post-login path: [authenticated = True], the token,
    the account id and, when given, the existing subject. *)
Definition login_context (c : SubjectContext) (authc_token : option Token)
  (account_id : option Ids) (existing_subject : option loc)
  : SubjectContext :=
  mkContext (ctx_security_manager c) (ctx_session c) (ctx_session_id c)
    (ctx_identifiers c) true (ctx_remembered c) (ctx_host c)
    authc_token account_id
    (match existing_subject with
     | Some s => Some s
     | None => ctx_subject c
     end)
    (ctx_session_creation_enabled c).

Definition create_subject (self : SecurityManager)
  (authc_token : option Token) (account_id : option Ids)
  (existing_subject : option loc) (subject_context : option SubjectContext)
  : M World loc :=
  let context :=
    match subject_context with
    | None =>
        login_context (create_subject_context self existing_subject)
          authc_token account_id existing_subject
    | Some c => c
    end in
  let context := ensure_security_manager self context in
  context <- resolve_session self context ;;
  context <- resolve_identifiers self context ;;
  subject <- do_create_subject self context ;;
  save self subject ;;;
  ret subject.

Definition call_authenticator (self : SecurityManager)
  (identifiers : option Ids) (authc_token : option Token)
  : M World (option Ids) :=
  modify (record_event (Authenticate identifiers authc_token)) ;;;
  lift (authenticator_authenticate_account (authenticator self)
          identifiers authc_token).

(** [raise AdditionalAuthenticationRequired] raises a new instance built
    without arguments: it carries no account id. *)
Definition login (self : SecurityManager) (subject : option loc)
  (authc_token : option Token) : M World loc :=
  account_id <-
    try_except
      (s <- attr subject ;;
       w <- get ;;
       call_authenticator self (identifiers (heap w !!! s)) authc_token)
      (fun e =>
         match e, subject with
         | AdditionalAuthenticationRequired exc_account_id, Some s =>
             Some (update_subject_identity self exc_account_id s ;;;
                   raise (AdditionalAuthenticationRequired None))
         | _, Some s =>
             if is_authentication_exception e
             then Some (try_except (on_failed_login self authc_token e s)
                          (swallow tt) ;;;
                        raise e)
             else None
         | _, None => None
         end) ;;
  logged_in <- create_subject self authc_token account_id subject None ;;
  on_successful_login self authc_token account_id logged_in ;;;
  ret logged_in.

(** [subject.get_session(False)] then [session.stop(subject.identifiers)]. *)
Definition stop_session (self : SecurityManager) (subject : loc)
  : M World unit :=
  modify (record_event (SubjectGetSession subject)) ;;;
  w <- get ;;
  match session (heap w !!! subject) with
  | Some sess =>
      let ids := identifiers (heap w !!! subject) in
      modify (record_event (SessionStop sess ids)) ;;;
      outcome (session_stop (session_manager self) sess ids)
  | None => ret tt
  end.

(** The copy of the identifiers only feeds a debug message. *)
Definition logout (self : SecurityManager) (subject : option loc)
  : M World unit :=
  match subject with
  | None => raise ValueError
  | Some s =>
      before_logout self s ;;;
      try_finally
        (try_except (delete self s) (swallow tt))
        (try_except (stop_session self s) (swallow tt))
  end.

End NativeSecurityManager.

End Mgt.

(* ===================================================================== *)
(** ** Concrete instances used to exercise the models                    *)
(* ===================================================================== *)

Module Examples.

Import Realm.

(** A two-part permission, domain and action, where ["*"] stands for
    everything: the wildcard rule of spec section 8. *)
Record SimplePermission : Type := mkPerm {
  perm_domain : string;
  perm_action : string
}.

#[global] Instance SimplePermission_eq_dec : EqDecision SimplePermission.
Proof. solve_decision. Defined.

Definition part_implies (granted requested : string) : bool :=
  bool_decide (granted = "*") || bool_decide (granted = requested).

#[global] Instance SimplePermission_Permission : Permission SimplePermission := {
  domain p := [perm_domain p];
  implies g r :=
    part_implies (perm_domain g) (perm_domain r)
    && part_implies (perm_action g) (perm_action r)
}.

Definition alice_token : Token := mkToken "alice" "s3cret".

Definition alice_account : Account := mkAccount "alice" "s3cret".

(** An account store that knows alice only. *)
Definition alice_store : AccountStore (P := SimplePermission) :=
  mkAccountStore
    (fun t => match t with
              | Some tok => if bool_decide (identifier tok = "alice")
                            then Ok (Some alice_account) else Ok None
              | None => Ok None
              end)
    (fun _ => Raise (OtherException "no authorization data")).

(** Resolvers that always hand out the cache and key it by the token's
    identifier, the account's id or the account id given, in that order. *)
Definition the_cache_resolver : CacheResolver := mkCacheResolver (fun _ => true).

Definition by_identifier : CacheKeyResolver :=
  mkCacheKeyResolver
    (fun a => match arg_authc_token a, arg_account a, arg_account_id a with
              | Some t, _, _ => Some (identifier t)
              | None, Some acc, _ => Some (account_id acc)
              | None, None, k => k
              end).

Definition default_handler : DefaultCredentialsCacheHandler :=
  mkCredentialsCacheHandler (Some the_cache_resolver) (Some by_identifier).

Definition password_matcher (t : option Token) (a : option Account) : bool :=
  match t, a with
  | Some tok, Some acc =>
      bool_decide (credentials tok = account_credentials acc)
  | _, _ => false
  end.

Definition empty_world : World (P := SimplePermission) := mkWorld ∅ ∅ [].

Definition alice_cached : World (P := SimplePermission) :=
  mkWorld {[ "alice" := alice_account ]} ∅ [].

(** alice's roles, and her one grant: read on files. *)
Definition alice_authz : AuthorizationInfo (P := SimplePermission) :=
  mkAuthorizationInfo
    {[ "admin"; "editor" ]}
    {[ "files" := [mkPerm "files" "read"] ]}.

(** An authorization cache handler whose cache already holds alice. *)
Definition warm_authz_handler : AuthorizationCacheHandler :=
  mkAuthorizationCacheHandler
    (fun ids => match ids with
                | IdStr "alice" => ret (Some alice_authz)
                | _ => ret None
                end)
    (fun _ _ => ret tt).

(** A realm with store, credentials cache and warm authorization cache. *)
Definition full_realm : AccountStoreRealm :=
  mkRealm (Some alice_store) password_matcher (Some default_handler)
    (Some warm_authz_handler) None.

(** The same realm without an account store. *)
Definition storeless_realm : AccountStoreRealm :=
  mkRealm None password_matcher (Some default_handler)
    (Some warm_authz_handler) None.

(** A store that holds alice's account, her roles admin and editor and her
    grant to read files, and a realm over it whose authorization cache was
    never configured. *)
Definition authz_store : AccountStore (P := SimplePermission) :=
  mkAccountStore
    (get_account alice_store)
    (fun ids => match ids with
                | IdStr "alice" =>
                    Ok (mkAuthzAccount {[ "admin"; "editor" ]}
                          {[ "files" := [mkPerm "files" "read"] ]})
                | _ => Raise (OtherException "unknown account")
                end).

Definition cold_realm : AccountStoreRealm :=
  mkRealm (Some authz_store) password_matcher (Some default_handler)
    None None.

(** A token for alice with the wrong password. *)
Definition wrong_token : Token := mkToken "alice" "guess".

(** A store whose lookup fails inside with an AttributeError. *)
Definition faulty_store : AccountStore (P := SimplePermission) :=
  mkAccountStore (fun _ => Raise AttributeError)
    (fun _ => Raise (OtherException "no authorization data")).

Definition faulty_realm : AccountStoreRealm :=
  mkRealm (Some faulty_store) password_matcher (Some default_handler)
    (Some warm_authz_handler) None.



(** *** Security manager instances *)

Import Mgt.

(** A SubjectContext class whose resolve methods read the context's own
    attributes. *)
Definition plain_context_class : SubjectContextClass :=
  mkSubjectContextClass
    (mkContext true None None None false false None None None None true)
    ctx_security_manager
    ctx_session
    (fun c _ _ => ctx_identifiers c)
    (fun c _ => ctx_authenticated c)
    (fun c _ => ctx_host c).

Definition anonymous_context : SubjectContext :=
  mkContext true None None None false false None None None None true.

(** A codec and a cipher just good enough to run the pipeline. *)
Definition toy_serialization : SerializationManager :=
  mkSerializationManager
    (fun _ => Ok [x61; x6c; x69; x63; x65])
    (fun _ => Ok (Some ["alice"])).

Definition toy_fernet : Fernet :=
  mkFernet (fun _ b => Ok (x80 :: b))
           (fun _ b => match b with
                       | x80 :: b' => Ok b'
                       | _ => Raise (OtherException "InvalidToken")
                       end).

(** A remember-me manager whose persistence store cannot be read. *)
Definition unreadable_rmm : RememberMeManager :=
  mkRememberMeManager
    (fun _ => None)
    (fun _ _ => None)
    (fun _ => Raise (OtherException "store unavailable"))
    (Some toy_serialization) [] [] toy_fernet.

(** A remember-me manager holding a ciphertext that does not decrypt. *)
Definition corrupted_rmm : RememberMeManager :=
  mkRememberMeManager
    (fun _ => None)
    (fun _ _ => None)
    (fun _ => Ok (Some [x00; x01]))
    (Some toy_serialization) [] [] toy_fernet.

(** An authenticator that asks for a second factor for alice. *)
Definition second_factor_authenticator : Authenticator :=
  mkAuthenticator
    (fun _ _ => Raise (AdditionalAuthenticationRequired (Some ["alice"]))).

Definition quiet_store : SubjectStore :=
  mkSubjectStore (fun _ _ => None) (fun _ _ => None).

(** A subject store whose delete fails and sessions whose stop fails. *)
Definition broken_store : SubjectStore :=
  mkSubjectStore (fun _ _ => None)
    (fun _ _ => Some (OtherException "delete failed")).

Definition quiet_sessions : SessionManager :=
  mkSessionManager (fun k => Ok (Some k)) (fun _ _ => None).

Definition broken_sessions : SessionManager :=
  mkSessionManager (fun k => Ok (Some k))
    (fun _ _ => Some (OtherException "stop failed")).

Definition second_factor_manager : SecurityManager :=
  mkSecurityManager None second_factor_authenticator quiet_store
    quiet_sessions plain_context_class.

Definition unreadable_manager : SecurityManager :=
  mkSecurityManager (Some unreadable_rmm) second_factor_authenticator
    quiet_store quiet_sessions plain_context_class.

Definition broken_manager : SecurityManager :=
  mkSecurityManager None second_factor_authenticator broken_store
    broken_sessions plain_context_class.

(** One anonymous subject with a session, at address 0. *)
Definition guest : Subject := mkSubject None false false None (Some "sid-1") true.

Definition one_guest : Mgt.World := Mgt.mkWorld {[ 0 := guest ]} [].

(** A remember-me manager whose store holds alice's identity as the toy
    codec and cipher write it. *)
Definition stocked_rmm : RememberMeManager :=
  mkRememberMeManager
    (fun _ => None)
    (fun _ _ => None)
    (fun _ => Ok (Some [x80; x61; x6c; x69; x63; x65]))
    (Some toy_serialization) [] [] toy_fernet.

(** An authenticator that rejects every token, and one that accepts every
    token as alice. *)
Definition rejecting_authenticator : Authenticator :=
  mkAuthenticator (fun _ _ => Raise IncorrectCredentialsException).

Definition accepting_authenticator : Authenticator :=
  mkAuthenticator (fun _ _ => Ok (Some ["alice"])).

Definition rejecting_manager : SecurityManager :=
  mkSecurityManager (Some stocked_rmm) rejecting_authenticator quiet_store
    quiet_sessions plain_context_class.

(** Accepts alice, but its remember-me store cannot be written. *)
Definition write_protected_rmm : RememberMeManager :=
  mkRememberMeManager
    (fun _ => None)
    (fun _ _ => Some (OtherException "read-only store"))
    (fun _ => Ok None)
    (Some toy_serialization) [] [] toy_fernet.

Definition accepting_manager : SecurityManager :=
  mkSecurityManager (Some write_protected_rmm) accepting_authenticator
    quiet_store quiet_sessions plain_context_class.

(** A session manager for which every session id is stale. *)
Definition stale_sessions : SessionManager :=
  mkSessionManager (fun _ => Raise InvalidSessionException) (fun _ _ => None).

Definition stale_manager : SecurityManager :=
  mkSecurityManager (Some stocked_rmm) accepting_authenticator quiet_store
    stale_sessions plain_context_class.

(** A context that names a session id and nothing else. *)
Definition returning_context : SubjectContext :=
  mkContext true None (Some "sid-9") None false false None None None None
    true.

Definition remember_me_token : Token := mkToken "alice" true.

End Examples.

(* ===================================================================== *)
(** ** Properties of the realm                                           *)
(* ===================================================================== *)

Module RealmProps.

Import Realm.

(** Unfolds the monad down to pairs. *)
Ltac run :=
  unfold bind, ret, raise, lift, modify, get, attr, try_except,
    on_AttributeError in *; simpl in *.

Section WithPermission.

Context {P : Type} `{Permission P}.

Implicit Types (self : @AccountStoreRealm P) (w : @World P).

(** No module global is called [cch]. *)
Lemma load_global_cch : load_global "cch" = Raise NameError.
Proof. reflexivity. Qed.

(** A cache lookup reads and never writes. *)
Lemma get_cached_credentials_reads (h : DefaultCredentialsCacheHandler)
  (authc_token : option Token) w :
  snd (get_cached_credentials h authc_token w) = w.
Proof.
  unfold get_cached_credentials, cache_get. run.
  destruct (credentials_cache_resolver h) as [cr|]; simpl; [|reflexivity].
  destruct (credentials_cache_key_resolver h) as [kr|]; simpl; [|reflexivity].
  destruct (get_cache cr _); reflexivity.
Qed.


(** Whenever clear_cached_credentials is reached it raises NameError and
    leaves the world as it found it. *)
Lemma clear_cached_credentials_raises self (identifiers : string) w :
  clear_cached_credentials self identifiers w = (Raise NameError, w).
Proof. reflexivity. Qed.

(** C1: for a token whose credentials match, authenticate_account does not
    return the account: the clearing step raises NameError, and the world,
    credentials cache included, stays as get_credentials left it, so no
    entry has been removed. *)
Theorem authenticate_account_accepted_raises self (tok : Token)
  (account : option Account) w w1 :
  get_credentials self (Some tok) w = (Ok account, w1) ->
  credentials_matcher self (Some tok) account = true ->
  authenticate_account self (Some tok) w = (Raise NameError, w1).
Proof.
  intros Hget Hmatch.
  unfold authenticate_account, assert_credentials_match.
  unfold bind at 1. rewrite Hget.
  rewrite Hmatch. reflexivity.
Qed.

(** The store call on its own: recorded once, result passed through. *)
Lemma store_get_account_some self (st : AccountStore)
  (authc_token : option Token) w :
  account_store self = Some st ->
  store_get_account self authc_token w =
    (get_account st authc_token, record_call (GetAccount authc_token) w).
Proof. intros Hst. unfold store_get_account. run. rewrite Hst. reflexivity. Qed.

Lemma store_get_account_none self (authc_token : option Token) w :
  account_store self = None ->
  store_get_account self authc_token w = (Raise AttributeError, w).
Proof. intros Hst. unfold store_get_account. run. rewrite Hst. reflexivity. Qed.



(** C9, as amended: when the credentials cache yields no account for the
    token (no handler, or a miss), get_credentials raises
    RealmMisconfiguredException if no account store is configured, without
    touching the world, and returns None, after one store call, if the
    configured store has no matching record. *)
Theorem get_credentials_on_cache_miss self (authc_token : option Token) w :
  (forall h, credentials_cache_handler self = Some h ->
             fst (get_cached_credentials h authc_token w) = Ok None) ->
  (account_store self = None ->
   get_credentials self authc_token w = (Raise RealmMisconfiguredException, w))
  /\
  (forall st, account_store self = Some st ->
              get_account st authc_token = Ok None ->
              get_credentials self authc_token w =
                (Ok None, record_call (GetAccount authc_token) w)).
Proof.
  intros Hmiss.
  assert (Hlook :
    match credentials_cache_handler self with
    | Some h => get_cached_credentials h authc_token
    | None => ret None
    end w = (Ok None, w)).
  { destruct (credentials_cache_handler self) as [h|]; [|reflexivity].
    specialize (Hmiss h eq_refl).
    pose proof (get_cached_credentials_reads h authc_token w) as Hw.
    destruct (get_cached_credentials h authc_token w) as [r w0].
    simpl in *. congruence. }
  split.
  - intros Hst. unfold get_credentials. unfold bind at 1. rewrite Hlook.
    unfold bind at 1, try_except.
    rewrite (store_get_account_none self) by assumption. reflexivity.
  - intros st Hst Hacc. unfold get_credentials. unfold bind at 1.
    rewrite Hlook. unfold bind at 1, try_except.
    rewrite (store_get_account_some self st) by assumption.
    rewrite Hacc. destruct authc_token; reflexivity.
Qed.

(** *** Authorization *)

(** The inner loop answers whether some authorized permission implies the
    requested one. *)
Lemma scan_authorized_true_iff (authorized_perms : list P) (reqstd_perm : P) :
  fst (scan_authorized authorized_perms reqstd_perm) = true
  <-> exists c, c ∈ authorized_perms /\ implies c reqstd_perm = true.
Proof.
  induction authorized_perms as [|x l IH]; simpl.
  - split; [discriminate|]. intros (c & Hc & _). inversion Hc.
  - destruct (implies x reqstd_perm) eqn:Hx; simpl.
    + split; [|reflexivity]. intros _. exists x. split; [left|assumption].
    + destruct (scan_authorized l reqstd_perm) as [b seen]. simpl in *.
      rewrite IH. split.
      * intros (c & Hc & Himp). exists c. split; [right|]; assumption.
      * intros (c & Hc & Himp). apply elem_of_cons in Hc as [->|Hc].
        -- congruence.
        -- exists c. split; assumption.
Qed.

(** The [break]: on success the permissions examined are those up to and
    including the first that implies the request. *)
Lemma scan_authorized_stops (authorized_perms : list P) (reqstd_perm : P) :
  fst (scan_authorized authorized_perms reqstd_perm) = true ->
  exists pre c rest,
    authorized_perms = pre ++ c :: rest
    /\ snd (scan_authorized authorized_perms reqstd_perm) = pre ++ [c]
    /\ implies c reqstd_perm = true
    /\ Forall (fun x => implies x reqstd_perm = false) pre.
Proof.
  induction authorized_perms as [|x l IH]; simpl; [discriminate|].
  destruct (implies x reqstd_perm) eqn:Hx; simpl.
  - intros _. exists [], x, l. repeat split; [assumption|constructor].
  - destruct (scan_authorized l reqstd_perm) as [b seen]. simpl in *.
    intros Hb. destruct (IH Hb) as (pre & c & rest & -> & -> & Hc & Hpre).
    exists (x :: pre), c, rest. repeat split; [assumption|].
    constructor; assumption.
Qed.

(** The flag does not depend on the order in which the set is iterated. *)
Lemma scan_authorized_order (l l' : list P) (reqstd_perm : P) :
  l ≡ₚ l' ->
  fst (scan_authorized l reqstd_perm) = fst (scan_authorized l' reqstd_perm).
Proof.
  intros Hperm.
  destruct (fst (scan_authorized l reqstd_perm)) eqn:Hl;
    destruct (fst (scan_authorized l' reqstd_perm)) eqn:Hl'; try reflexivity.
  - apply scan_authorized_true_iff in Hl as (c & Hc & Himp).
    rewrite <- Hl'. symmetry. apply scan_authorized_true_iff.
    exists c. split; [rewrite <- Hperm|]; assumption.
  - apply scan_authorized_true_iff in Hl' as (c & Hc & Himp).
    rewrite <- Hl. apply scan_authorized_true_iff.
    exists c. split; [rewrite Hperm|]; assumption.
Qed.

Lemma elem_of_frozenset_chain (a b : list P) (c : P) :
  c ∈ frozenset_chain a b <-> c ∈ a \/ c ∈ b.
Proof. unfold frozenset_chain. rewrite elem_of_remove_dups. apply elem_of_app. Qed.

(** For a Permission with a first domain, the related permissions are the
    wildcard entries chained with that domain's entries. *)
Lemma get_authzd_permissions_perm (authz_info : AuthorizationInfo) (p : P)
  (d : string) (ds : list string) :
  domain p = d :: ds ->
  get_authzd_permissions (Some authz_info) (VPerm p) =
    Ok (frozenset_chain (get_permission authz_info "*")
          (get_permission authz_info d)).
Proof.
  intros Hd. unfold get_authzd_permissions, related_perms. rewrite Hd.
  reflexivity.
Qed.

(** The outer loop on Permissions that all have a domain: one pair per
    request, in order, each flag the answer of the inner loop. *)
Lemma is_permitted_loop_perms (authz_info : AuthorizationInfo)
  (reqs : list P) :
  Forall (fun q => domain q <> []) reqs ->
  is_permitted_loop authz_info (VPerm <$> reqs) =
    ((fun q =>
        (VPerm q,
         fst (scan_authorized
                (frozenset_chain (get_permission authz_info "*")
                   (get_permission authz_info (hd "" (domain q)))) q)))
       <$> reqs,
     Ok tt).
Proof.
  induction 1 as [|q l Hq _ IH]; [reflexivity|].
  destruct (domain q) as [|d ds] eqn:Hd; [congruence|].
  cbn [fmap list_fmap is_permitted_loop].
  rewrite (get_authzd_permissions_perm authz_info q d ds Hd).
  change (list_fmap P PermArg VPerm l) with (VPerm <$> l).
  rewrite IH. rewrite Hd. reflexivity.
Qed.

(** *** Resolving the authorization info *)

(** Without an authorization cache handler, a store that has the account's
    grants is asked once, and then the lookup of the class name that
    realm.py never binds raises NameError. *)
Lemma get_authorization_info_without_cache self (identifiers : Identifiers)
  w (st : AccountStore) (account : AuthzAccount) :
  authorization_cache_handler self = None ->
  account_store self = Some st ->
  get_authz_info st identifiers = Ok account ->
  get_authorization_info self identifiers w
  = (Raise NameError, record_call (GetAuthzInfo identifiers) w).
Proof.
  intros Hach Hst Hacc. unfold get_authorization_info, store_get_authz_info.
  rewrite Hach, Hst. run. rewrite Hacc. reflexivity.
Qed.

(** For an identifier collection the info is never resolved: with a cache
    handler the trace message cannot be built, without one the miss path
    is taken. *)
Lemma get_authorization_info_collection self (ids : Ids) w :
  exists e w',
    get_authorization_info self (IdCollection ids) w = (Raise e, w').
Proof.
  unfold get_authorization_info, store_get_authz_info.
  destruct (authorization_cache_handler self) as [h|]; run.
  - destruct (get_cached_authorization_info h (IdCollection ids) w)
      as [[ai|e] w1]; simpl; eauto.
  - destruct (account_store self) as [st|]; simpl; [|eauto].
    destruct (get_authz_info st (IdCollection ids)); simpl; eauto.
Qed.

Lemma resolve_each_total (r : PermArg -> result P) (f : PermArg -> P)
  (l : list PermArg) :
  (forall x, x ∈ l -> r x = Ok (f x)) ->
  resolve_each (Some r) l = Ok (f <$> l).
Proof.
  induction l as [|x l IH]; intros Hr; [reflexivity|]. simpl.
  rewrite (Hr x) by left.
  rewrite IH by (intros y Hy; apply Hr; right; exact Hy). reflexivity.
Qed.

(** What the loop computes for each request: the candidates, and a flag
    that is the inner loop's answer over them. *)
Lemma is_permitted_pairs_spec (authz_info : AuthorizationInfo)
  (l : list P) :
  Forall (fun p => domain p <> []) l ->
  Forall2
    (fun p y =>
       y.1 = VPerm p
       /\ exists candidates,
            get_authzd_permissions (Some authz_info) (VPerm p) = Ok candidates
            /\ (forall c, c ∈ candidates <->
                          c ∈ get_permission authz_info "*"
                          \/ c ∈ get_permission authz_info (hd "" (domain p)))
            /\ y.2 = fst (scan_authorized candidates p)
            /\ (y.2 = true <-> exists c, c ∈ candidates /\ implies c p = true)
            /\ (y.2 = true ->
                exists pre c rest,
                  candidates = pre ++ c :: rest
                  /\ snd (scan_authorized candidates p) = pre ++ [c]
                  /\ implies c p = true
                  /\ Forall (fun x => implies x p = false) pre))
    l
    ((fun q =>
        (VPerm q,
         fst (scan_authorized
                (frozenset_chain (get_permission authz_info "*")
                   (get_permission authz_info (hd "" (domain q)))) q)))
       <$> l).
Proof.
  induction 1 as [|p l Hp _ IH]; constructor; [|exact IH].
  destruct (domain p) as [|d ds] eqn:Hd; [congruence|].
  split; [reflexivity|].
  exists (frozenset_chain (get_permission authz_info "*")
            (get_permission authz_info d)).
  split; [apply (get_authzd_permissions_perm authz_info p d ds Hd)|].
  split; [intros c; apply elem_of_frozenset_chain|].
  split; [reflexivity|].
  split; [apply scan_authorized_true_iff|apply scan_authorized_stops].
Qed.

(** Entries under a domain that is neither ["*"] nor the domain of any
    request change nothing of what the loop yields. *)
Lemma is_permitted_loop_other_domain (authz_info : AuthorizationInfo)
  (d' : string) (ps : list P) (l : list P) :
  d' <> "*" ->
  Forall (fun p => domain p <> []) l ->
  Forall (fun p => hd "" (domain p) <> d') l ->
  is_permitted_loop
    (mkAuthorizationInfo (roleids authz_info)
       (<[d' := ps]> (permissions authz_info)))
    (VPerm <$> l)
  = is_permitted_loop authz_info (VPerm <$> l).
Proof.
  intros Hstar Hdom Hother.
  rewrite !is_permitted_loop_perms by assumption.
  f_equal. induction Hother as [|p l Hp _ IH]; [reflexivity|].
  inversion Hdom; subst. cbn [fmap list_fmap]. f_equal.
  - unfold get_permission. simpl.
    rewrite !lookup_insert_ne by congruence. reflexivity.
  - apply IH. assumption.
Qed.

(** C6: the filtering by domain is in the loop, but the loop is reached
    only from a warm authorization cache.  For requested permissions with
    a domain: with no authorization cache handler and a store that has the
    account's grants, is_permitted asks the store and ends in NameError
    with no pair yielded, so what the store holds under ["*"] or under the
    request's domain grants nothing; whenever get_authorization_info raises,
    is_permitted yields nothing and ends with that exception.  When the
    info is resolved, is_permitted yields one pair per request, in order;
    the candidates of each request are exactly the permissions stored under
    ["*"] and under its domain; its flag is true exactly when a candidate
    implies it, the scan ending at the first such candidate; entries under
    any other domain change nothing of what is yielded; and string requests
    give the same pairs for the distinct permissions they resolve to. *)
Theorem is_permitted_domain_filtering self (identifiers : Identifiers) w
  (q : P) (reqs : list P) :
  Forall (fun p => domain p <> []) (q :: reqs) ->
  (forall st account,
      authorization_cache_handler self = None ->
      account_store self = Some st ->
      get_authz_info st identifiers = Ok account ->
      is_permitted self identifiers (PyList (VPerm <$> q :: reqs)) w
      = (([], Raise NameError), record_call (GetAuthzInfo identifiers) w))
  /\ (forall e w',
        get_authorization_info self identifiers w = (Raise e, w') ->
        is_permitted self identifiers (PyList (VPerm <$> q :: reqs)) w
        = (([], Raise (leaving_generator e)), w'))
  /\ (forall authz_info w',
        get_authorization_info self identifiers w = (Ok authz_info, w') ->
        exists ys,
          is_permitted self identifiers (PyList (VPerm <$> q :: reqs)) w
            = ((ys, Ok tt), w')
          /\ Forall2
               (fun p y =>
                  y.1 = VPerm p
                  /\ exists candidates,
                       get_authzd_permissions (Some authz_info) (VPerm p)
                         = Ok candidates
                       /\ (forall c,
                             c ∈ candidates <->
                             c ∈ get_permission authz_info "*"
                             \/ c ∈ get_permission authz_info
                                    (hd "" (domain p)))
                       /\ y.2 = fst (scan_authorized candidates p)
                       /\ (y.2 = true <->
                           exists c, c ∈ candidates /\ implies c p = true)
                       /\ (y.2 = true ->
                           exists pre c rest,
                             candidates = pre ++ c :: rest
                             /\ snd (scan_authorized candidates p) = pre ++ [c]
                             /\ implies c p = true
                             /\ Forall (fun x => implies x p = false) pre))
               (q :: reqs) ys
          /\ (forall d' ps,
                d' <> "*" ->
                Forall (fun p => hd "" (domain p) <> d') (q :: reqs) ->
                is_permitted_loop
                  (mkAuthorizationInfo (roleids authz_info)
                     (<[d' := ps]> (permissions authz_info)))
                  (VPerm <$> q :: reqs)
                = (ys, Ok tt))
          /\ (forall r f s l,
                permission_resolver self = Some r ->
                (forall x, x ∈ VStr s :: l ->
                           r x = Ok (f x) /\ domain (f x) <> []) ->
                exists zs,
                  is_permitted self identifiers (PyList (VStr s :: l)) w
                    = ((zs, Ok tt), w')
                  /\ Forall2
                       (fun p z =>
                          z.1 = VPerm p
                          /\ (z.2 = true <->
                              exists c,
                                (c ∈ get_permission authz_info "*"
                                 \/ c ∈ get_permission authz_info
                                        (hd "" (domain p)))
                                /\ implies c p = true))
                       (remove_dups (f <$> VStr s :: l)) zs)).
Proof.
  intros Hdom.
  assert (Hreq : requested_perms self (PyList (VPerm <$> q :: reqs))
                 = Ok (VPerm <$> q :: reqs)) by reflexivity.
  split; [|split].
  - intros st account Hach Hst Hacc. unfold is_permitted. rewrite Hreq.
    rewrite (get_authorization_info_without_cache self identifiers w st
               account Hach Hst Hacc).
    reflexivity.
  - intros e w' Hinfo. unfold is_permitted. rewrite Hreq, Hinfo. reflexivity.
  - intros authz_info w' Hinfo. eexists. split.
    { unfold is_permitted. rewrite Hreq, Hinfo.
      rewrite (is_permitted_loop_perms authz_info (q :: reqs) Hdom).
      reflexivity. }
    split; [apply is_permitted_pairs_spec; exact Hdom|].
    split.
    { intros d' ps Hstar Hother.
      rewrite (is_permitted_loop_other_domain authz_info d' ps (q :: reqs))
        by assumption.
      apply is_permitted_loop_perms. exact Hdom. }
    intros r f s l Hres Hr.
    assert (Hdom' : Forall (fun p => domain p <> [])
                      (remove_dups (f <$> VStr s :: l))).
    { apply Forall_forall. intros p Hp.
      apply elem_of_remove_dups, list_elem_of_fmap in Hp as (x & -> & Hx).
      apply (Hr x Hx). }
    eexists. split.
    { unfold is_permitted, requested_perms, resolve_permissions.
      cbn [first_element elements_of]. rewrite Hres.
      rewrite (resolve_each_total r f) by (intros x Hx; apply (Hr x Hx)).
      rewrite Hinfo.
      rewrite (is_permitted_loop_perms authz_info _ Hdom'). reflexivity. }
    pose proof (is_permitted_pairs_spec authz_info _ Hdom') as Hspec.
    eapply Forall2_impl; [exact Hspec|].
    intros p z (Hz & candidates & _ & Hmem & _ & Hiff & _).
    split; [exact Hz|]. rewrite Hiff.
    split; intros (c & Hc & Himp); exists c; split; try assumption;
      apply Hmem; exact Hc.
Qed.

(** C7: has_all_roles answers only from a warm authorization cache.  With
    no authorization cache handler and a store that has the account's
    roles, it asks the store and raises NameError, whatever the roles are;
    for an identifier collection it always raises; whenever
    get_authorization_info raises, it raises the same.  When the info is
    resolved it returns a boolean that is true exactly when the requested
    role ids are a subset of the info's role ids; for roles admin and editor
    that accepts {admin} and {admin, editor} and rejects
    {admin, superuser}. *)
Theorem has_all_roles_iff_subset self (identifiers : Identifiers)
  (roleid_s : gset string) w :
  (forall st account,
      authorization_cache_handler self = None ->
      account_store self = Some st ->
      get_authz_info st identifiers = Ok account ->
      has_all_roles self identifiers roleid_s w
      = (Raise NameError, record_call (GetAuthzInfo identifiers) w))
  /\ (forall ids, identifiers = IdCollection ids ->
                  exists e w',
                    has_all_roles self identifiers roleid_s w = (Raise e, w'))
  /\ (forall e w',
        get_authorization_info self identifiers w = (Raise e, w') ->
        has_all_roles self identifiers roleid_s w = (Raise e, w'))
  /\ (forall authz_info w',
        get_authorization_info self identifiers w = (Ok authz_info, w') ->
        (exists b, has_all_roles self identifiers roleid_s w = (Ok b, w')
                   /\ (b = true <-> roleid_s ⊆ roleids authz_info))
        /\ (roleids authz_info = {[ "admin"; "editor" ]} ->
            has_all_roles self identifiers {[ "admin" ]} w = (Ok true, w')
            /\ has_all_roles self identifiers {[ "admin"; "editor" ]} w
               = (Ok true, w')
            /\ has_all_roles self identifiers {[ "admin"; "superuser" ]} w
               = (Ok false, w'))).
Proof.
  split; [|split; [|split]].
  - intros st account Hach Hst Hacc. unfold has_all_roles, bind.
    rewrite (get_authorization_info_without_cache self identifiers w st
               account Hach Hst Hacc).
    reflexivity.
  - intros ids ->.
    destruct (get_authorization_info_collection self ids w)
      as (e & w' & Hinfo).
    exists e, w'. unfold has_all_roles, bind. rewrite Hinfo. reflexivity.
  - intros e w' Hinfo. unfold has_all_roles, bind. rewrite Hinfo.
    reflexivity.
  - intros authz_info w' Hinfo.
    assert (Hrun : forall rs, has_all_roles self identifiers rs w =
                     (Ok (bool_decide (rs ⊆ roleids authz_info)), w')).
    { intros rs. unfold has_all_roles, bind. rewrite Hinfo. reflexivity. }
    split.
    + exists (bool_decide (roleid_s ⊆ roleids authz_info)).
      split; [apply Hrun|]. rewrite bool_decide_eq_true. reflexivity.
    + intros Hroles. rewrite !Hrun, Hroles. repeat split.
Qed.

(** C10: is_permitted looks at [permission_s[0]] before anything else.  An
    empty list ends it with IndexError and a set with TypeError, in both
    cases with nothing yielded and the world untouched; on a non-empty list
    the head alone selects the branch, whatever follows it: a string head
    sends the whole list to the resolver, a Permission head takes the list
    as it is.  So a run that yields a pair or ends normally was given a
    non-empty list. *)
Theorem is_permitted_inspects_first_element self
  (identifiers : Identifiers) w :
  is_permitted self identifiers (PyList []) w = (([], Raise IndexError), w)
  /\ (forall l,
        is_permitted self identifiers (PySet l) w = (([], Raise TypeError), w))
  /\ (forall s l,
        requested_perms self (PyList (VStr s :: l)) =
          match resolve_permissions self (VStr s :: l) with
          | Ok perms => Ok (VPerm <$> perms)
          | Raise e => Raise e
          end)
  /\ (forall p l,
        requested_perms self (PyList (VPerm p :: l)) = Ok (VPerm p :: l))
  /\ (forall permission_s ys st w1,
        is_permitted self identifiers permission_s w = ((ys, st), w1) ->
        ys <> [] \/ st = Ok tt ->
        exists x l, permission_s = PyList (x :: l)).
Proof.
  repeat split; try reflexivity.
  intros [[|x l]|l] ys st w1; unfold is_permitted; simpl.
  - intros [= <- <- <-] [Hy|Hs]; congruence.
  - intros _ _. exists x, l. reflexivity.
  - intros [= <- <- <-] [Hy|Hs]; congruence.
Qed.

End WithPermission.

Import Examples.

(** Witness for C1: alice's matching token on an empty cache; the account
    fetched from the store is cached and stays cached. *)
Lemma authenticate_account_accepted_raises_witness :
  authenticate_account full_realm (Some alice_token) empty_world =
    (Raise NameError,
     mkWorld {[ "alice" := alice_account ]} ∅ [GetAccount (Some alice_token)]).
Proof.
  apply (authenticate_account_accepted_raises full_realm alice_token
           (Some alice_account)); reflexivity.
Defined.


(** Counterexample for C9 as stated: no account store is configured, yet
    get_credentials returns the cached account instead of raising. *)
Lemma get_credentials_storeless_cache_hit :
  account_store storeless_realm = None
  /\ get_credentials storeless_realm (Some alice_token) alice_cached
     = (Ok (Some alice_account), alice_cached)
  /\ fst (get_credentials storeless_realm (Some alice_token) alice_cached)
     <> Raise RealmMisconfiguredException.
Proof. repeat split. discriminate. Qed.

(** Witness for amended C9: the storeless realm on an empty cache. *)
Lemma get_credentials_on_cache_miss_witness :
  get_credentials storeless_realm (Some alice_token) empty_world
    = (Raise RealmMisconfiguredException, empty_world).
Proof.
  apply (get_credentials_on_cache_miss storeless_realm (Some alice_token)
           empty_world).
  - intros h [= <-]. reflexivity.
  - reflexivity.
Defined.

(** Witness for C6: alice's grant to read files is in the store, the
    authorization cache is not configured, and her request to read files
    ends in NameError with nothing yielded. *)
Lemma is_permitted_domain_filtering_witness :
  get_authz_info authz_store (IdStr "alice")
    = Ok (mkAuthzAccount {[ "admin"; "editor" ]}
            {[ "files" := [mkPerm "files" "read"] ]})
  /\ is_permitted cold_realm (IdStr "alice")
       (PyList [VPerm (mkPerm "files" "read")]) empty_world
     = (([], Raise NameError),
        record_call (GetAuthzInfo (IdStr "alice")) empty_world).
Proof.
  split; [reflexivity|].
  refine (proj1 (is_permitted_domain_filtering
                   (H := SimplePermission_Permission) cold_realm
                   (IdStr "alice") empty_world (mkPerm "files" "read") [] _)
            authz_store _ _ _ _).
  - repeat constructor; discriminate.
  - reflexivity.
  - reflexivity.
  - reflexivity.
Defined.

(** Witness for C7: alice's roles admin and editor are in the store, the
    authorization cache is not configured, and asking for admin ends in
    NameError. *)
Lemma has_all_roles_iff_subset_witness :
  has_all_roles cold_realm (IdStr "alice") {[ "admin" ]} empty_world
  = (Raise NameError, record_call (GetAuthzInfo (IdStr "alice")) empty_world).
Proof.
  refine (proj1 (has_all_roles_iff_subset cold_realm (IdStr "alice")
                   {[ "admin" ]} empty_world) authz_store _ _ _ _);
    reflexivity.
Defined.

(** From a warm authorization cache the checks do answer: alice, holding a
    files permission only, is refused a network request and has the roles
    admin and editor. *)
Example is_permitted_network_refused :
  is_permitted full_realm (IdStr "alice")
    (PyList [VPerm (mkPerm "network" "read")]) empty_world
  = (([(VPerm (mkPerm "network" "read"), false)], Ok tt), empty_world).
Proof. reflexivity. Qed.

Example has_all_roles_warm :
  has_all_roles full_realm (IdStr "alice") {[ "admin" ]} empty_world
    = (Ok true, empty_world)
  /\ has_all_roles full_realm (IdStr "alice") {[ "admin"; "editor" ]}
       empty_world = (Ok true, empty_world)
  /\ has_all_roles full_realm (IdStr "alice") {[ "admin"; "superuser" ]}
       empty_world = (Ok false, empty_world).
Proof. repeat split. Qed.

(** The same files permission does answer a files request, and a realm
    without a warm authorization cache cannot resolve the info at all: the
    store is asked and then the unbound class name is looked up. *)
Example is_permitted_files_read :
  is_permitted full_realm (IdStr "alice")
    (PyList [VPerm (mkPerm "files" "read")]) empty_world
  = (([(VPerm (mkPerm "files" "read"), true)], Ok tt), empty_world).
Proof. reflexivity. Qed.

Example get_authorization_info_cold :
  fst (get_authorization_info
         (mkRealm (Some (mkAccountStore (fun _ => Ok None)
                           (fun _ => Ok (mkAuthzAccount ∅ ∅))))
            password_matcher None None None)
         (IdStr "alice") empty_world)
  = Raise NameError.
Proof. reflexivity. Qed.

End RealmProps.

(* ===================================================================== *)
(** ** Properties of the remember-me manager and the security manager    *)
(* ===================================================================== *)

Module MgtProps.

Import Mgt.

Module RMM := Mgt.AbstractRememberMeManager.
Module NSM := Mgt.NativeSecurityManager.

(** Unfolds the monad and the event recorder down to pairs. *)
Ltac run :=
  unfold bind, ret, raise, lift, modify, get, attr, try_except, try_finally,
    outcome, swallow, record_event, set_heap in *; simpl in *.

Ltac unfold_rmm :=
  unfold RMM.on_successful_login, RMM.remember_identity,
    RMM.get_identity_to_remember, RMM.convert_identifiers_to_bytes,
    RMM.encrypt, RMM.remember_encrypted_identity, RMM.forget_identity,
    RMM.get_remembered_identifiers, RMM.fetch_and_convert,
    RMM.on_remembered_identifiers_failure,
    RMM.get_remembered_encrypted_identity, RMM.convert_bytes_to_identifiers,
    RMM.decrypt, RMM.on_logout, RMM.on_failed_login in *.

(** forget_identity records exactly one event, then returns or raises as
    the hook does; the heap is not touched. *)
Lemma forget_identity_run (rmm : RememberMeManager) (t : Target) (w : World) :
  RMM.forget_identity rmm t w =
    (match forget_identity_hook rmm t with
     | None => Ok tt
     | Some e => Raise e
     end,
     mkWorld (heap w) (log w ++ [ForgetIdentity t])).
Proof.
  unfold_rmm. run. destruct (forget_identity_hook rmm t); reflexivity.
Qed.

(** C5: on_successful_login begins by forgetting the subject's stored
    identity, and forgets only that once; with a token that does not ask to
    be remembered nothing else happens; an encrypted identity is handed to
    the persistence hook only for a token that asks to be remembered, and,
    the forget hook having returned and serialization and encryption
    succeeding, it is handed over for every such token. *)
Theorem on_successful_login_forgets_then_remembers (rmm : RememberMeManager)
  (subject : loc) (tok : Token) (account_id : option Ids) (w : World) :
  exists r w' rest,
    RMM.on_successful_login rmm subject (Some tok) account_id w = (r, w')
    /\ heap w' = heap w
    /\ log w' = log w ++ ForgetIdentity (OfSubject subject) :: rest
    /\ (forall t, ForgetIdentity t ∉ rest)
    /\ (is_remember_me tok = false ->
        rest = []
        /\ r = match forget_identity_hook rmm (OfSubject subject) with
               | None => Ok tt
               | Some e => Raise e
               end)
    /\ (forall s enc,
          RememberEncryptedIdentity s enc ∈ rest ->
          is_remember_me tok = true
          /\ forget_identity_hook rmm (OfSubject subject) = None)
    /\ (forall sm serialized enc,
          is_remember_me tok = true ->
          forget_identity_hook rmm (OfSubject subject) = None ->
          serialization_manager rmm = Some sm ->
          serialize sm account_id = Ok serialized ->
          encrypt_with (fernet rmm) (encryption_cipher_key rmm) serialized
            = Ok enc ->
          rest = [RememberEncryptedIdentity subject enc]
          /\ r = match remember_encrypted_identity_hook rmm subject enc with
                 | None => Ok tt
                 | Some e => Raise e
                 end).
Proof.
  unfold RMM.on_successful_login. unfold bind at 1.
  rewrite forget_identity_run.
  assert (Hnil : forall t : Target, ForgetIdentity t ∉ @nil Event)
    by (intros t Ht; inversion Ht).
  assert (Hnil' : forall s enc, RememberEncryptedIdentity s enc ∈ @nil Event ->
                    is_remember_me tok = true
                    /\ forget_identity_hook rmm (OfSubject subject) = None)
    by (intros s enc Ht; inversion Ht).
  destruct (forget_identity_hook rmm (OfSubject subject)) as [e|] eqn:Hf.
  { eexists _, _, []. split; [reflexivity|]. split; [reflexivity|].
    split; [reflexivity|]. split; [exact Hnil|].
    split; [intros; split; reflexivity|]. split; [exact Hnil'|].
    intros; discriminate. }
  run. destruct (is_remember_me tok) eqn:Hrm.
  2:{ eexists _, _, []. split; [reflexivity|]. split; [reflexivity|].
      split; [reflexivity|]. split; [exact Hnil|].
      split; [intros; split; reflexivity|]. split; [exact Hnil'|].
      intros; discriminate. }
  unfold_rmm. run.
  destruct (serialization_manager rmm) as [sm|] eqn:Hsm; simpl.
  2:{ eexists _, _, []. split; [reflexivity|]. split; [reflexivity|].
      split; [reflexivity|]. split; [exact Hnil|].
      split; [discriminate|]. split; [exact Hnil'|].
      intros; discriminate. }
  destruct (serialize sm account_id) as [ser|e] eqn:Hser; simpl.
  2:{ eexists _, _, []. split; [reflexivity|]. split; [reflexivity|].
      split; [reflexivity|]. split; [exact Hnil|].
      split; [discriminate|]. split; [exact Hnil'|].
      intros; congruence. }
  destruct (encrypt_with (fernet rmm) (encryption_cipher_key rmm) ser)
    as [enc|e] eqn:Henc; simpl.
  2:{ eexists _, _, []. split; [reflexivity|]. split; [reflexivity|].
      split; [reflexivity|]. split; [exact Hnil|].
      split; [discriminate|]. split; [exact Hnil'|].
      intros; congruence. }
  exists (match remember_encrypted_identity_hook rmm subject enc with
          | None => Ok tt
          | Some e => Raise e
          end),
    (mkWorld (heap w)
       ((log w ++ [ForgetIdentity (OfSubject subject)])
        ++ [RememberEncryptedIdentity subject enc])),
    [RememberEncryptedIdentity subject enc].
  split.
  { destruct (remember_encrypted_identity_hook rmm subject enc); reflexivity. }
  split; [reflexivity|].
  split; [simpl; rewrite <- app_assoc; reflexivity|].
  split.
  { intros t Ht. apply list_elem_of_singleton in Ht. discriminate. }
  split; [discriminate|].
  split; [intros; split; reflexivity|].
  intros sm' ser' enc' _ _ [= <-] Hser' Henc'.
  rewrite Hser in Hser'. injection Hser' as <-.
  rewrite Henc in Henc'. injection Henc' as <-.
  split; reflexivity.
Qed.

(** *** Retrieval of a remembered identity *)

(** The try block asks the persistence hook once and changes nothing else. *)
Lemma fetch_and_convert_world (rmm : RememberMeManager)
  (c : SubjectContext) (w : World) :
  snd (RMM.fetch_and_convert rmm c w) =
    mkWorld (heap w) (log w ++ [GetRememberedEncryptedIdentity c]).
Proof.
  unfold_rmm. run.
  destruct (get_remembered_encrypted_identity_hook rmm c) as [enc|e];
    [|reflexivity].
  destruct (truthy_bytes enc); [|reflexivity].
  destruct (decrypt_with _ _ _); [|reflexivity]. simpl.
  destruct (serialization_manager rmm); reflexivity.
Qed.

(** It raises exactly when the fetch, the decryption or the deserialization
    does (the last also when no serialization manager was injected). *)
Lemma fetch_and_convert_raises (rmm : RememberMeManager)
  (c : SubjectContext) (w : World) (e : exn) :
  fst (RMM.fetch_and_convert rmm c w) = Raise e <->
  get_remembered_encrypted_identity_hook rmm c = Raise e
  \/ exists b enc,
       get_remembered_encrypted_identity_hook rmm c = Ok (Some (b :: enc))
       /\ (decrypt_with (fernet rmm) (decryption_cipher_key rmm) (b :: enc)
           = Raise e
           \/ exists decrypted,
                decrypt_with (fernet rmm) (decryption_cipher_key rmm)
                  (b :: enc) = Ok decrypted
                /\ match serialization_manager rmm with
                   | Some sm => deserialize sm decrypted = Raise e
                   | None => e = AttributeError
                   end).
Proof.
  unfold_rmm. run.
  destruct (get_remembered_encrypted_identity_hook rmm c)
    as [[[|b enc]|]|e0]; simpl.
  - split; [discriminate|]. intros [|(b & enc & ? & _)]; discriminate.
  - destruct (decrypt_with _ _ _) as [dec|e1] eqn:Hdec; simpl.
    + destruct (serialization_manager rmm) as [sm|] eqn:Hsm; simpl.
      * split.
        -- intros Hr. right. exists b, enc. split; [reflexivity|].
           right. exists dec. split; [exact Hdec|exact Hr].
        -- intros [|(b' & enc' & [= <- <-] & [Hd|(dec' & Hd & Hr)])];
             [discriminate|congruence|].
           rewrite Hdec in Hd. injection Hd as <-. exact Hr.
      * split.
        -- intros [= <-]. right. exists b, enc. split; [reflexivity|].
           right. exists dec. split; [exact Hdec|reflexivity].
        -- intros [|(b' & enc' & [= <- <-] & [Hd|(dec' & Hd & Hr)])];
             [discriminate|congruence|congruence].
    + split.
      * intros [= <-]. right. exists b, enc. split; [reflexivity|].
        left. exact Hdec.
      * intros [|(b' & enc' & [= <- <-] & [Hd|(dec' & Hd & Hr)])];
          [discriminate|congruence|congruence].
  - split; [discriminate|]. intros [|(b & enc & ? & _)]; discriminate.
  - split.
    + intros [= <-]. left. reflexivity.
    + intros [[= <-]|(b & enc & ? & _)]; [reflexivity|discriminate].
Qed.

(** C2, as amended: when fetching, decrypting or deserializing a remembered
    identity raises [e], get_remembered_identifiers asks the forget hook
    exactly once and then, the hook having returned, raises [e] itself;
    the security manager's get_remembered_identity catches whatever was
    raised and returns None, so resolve_identifiers, for a context that
    resolves no identifiers of its own, returns the context as it was. *)
Theorem remembered_identity_failure_forgotten_then_swallowed
  (rmm : RememberMeManager) (c : SubjectContext) (w : World) (e : exn) :
  fst (RMM.fetch_and_convert rmm c w) = Raise e ->
  let w2 := mkWorld (heap w)
              (log w ++ [GetRememberedEncryptedIdentity c;
                         ForgetIdentity (OfContext c)]) in
  RMM.get_remembered_identifiers rmm c w =
    (match forget_identity_hook rmm (OfContext c) with
     | None => Raise e
     | Some e' => Raise e'
     end, w2)
  /\ forall nsm : SecurityManager,
       remember_me_manager nsm = Some rmm ->
       NSM.get_remembered_identity nsm c w = (Ok None, w2)
       /\ (truthy_ids (ctx_resolve_identifiers (subject_context_class nsm) c
                         (ctx_session c) (heap w)) = false ->
           NSM.resolve_identifiers nsm c w = (Ok c, w2)).
Proof.
  intros Hfail w2.
  assert (Hget : RMM.get_remembered_identifiers rmm c w =
                   (match forget_identity_hook rmm (OfContext c) with
                    | None => Raise e
                    | Some e' => Raise e'
                    end, w2)).
  { unfold RMM.get_remembered_identifiers, try_except.
    pose proof (fetch_and_convert_world rmm c w) as Hw.
    destruct (RMM.fetch_and_convert rmm c w) as [r w1]. simpl in *.
    subst r w1. unfold RMM.on_remembered_identifiers_failure.
    unfold bind. rewrite forget_identity_run. simpl.
    unfold w2. rewrite <- app_assoc. simpl.
    destruct (forget_identity_hook rmm (OfContext c)); reflexivity. }
  split; [exact Hget|].
  intros nsm Hrmm.
  assert (Hid : NSM.get_remembered_identity nsm c w = (Ok None, w2)).
  { unfold NSM.get_remembered_identity. rewrite Hrmm.
    unfold try_except. rewrite Hget.
    destruct (forget_identity_hook rmm (OfContext c)); reflexivity. }
  split; [exact Hid|].
  intros Hnone. unfold NSM.resolve_identifiers. unfold bind at 1, get.
  rewrite Hnone. unfold bind. rewrite Hid. reflexivity.
Qed.

(** *** Login *)

(** C3, as amended: when the authenticator raises
    AdditionalAuthenticationRequired carrying [P], login sets the subject's
    identifiers to [P], leaves its authenticated flag alone, saves it,
    creates no other subject, and then, the save having returned, raises a
    new AdditionalAuthenticationRequired that carries no account id. *)
Theorem login_additional_authentication_required (nsm : SecurityManager)
  (s : loc) (authc_token : option Token) (w : World) (P : option Ids) :
  is_Some (heap w !! s) ->
  authenticator_authenticate_account (authenticator nsm)
    (identifiers (heap w !!! s)) authc_token
    = Raise (AdditionalAuthenticationRequired P) ->
  let updated := NSM.set_identifiers P (heap w !!! s) in
  let w' := mkWorld (<[s := updated]> (heap w))
              (log w ++ [Authenticate (identifiers (heap w !!! s)) authc_token;
                         Save s updated]) in
  NSM.login nsm (Some s) authc_token w =
    (match store_save (subject_store nsm) s updated with
     | None => Raise (AdditionalAuthenticationRequired None)
     | Some e => Raise e
     end, w')
  /\ identifiers (heap w' !!! s) = P
  /\ authenticated (heap w' !!! s) = authenticated (heap w !!! s)
  /\ dom (heap w') = dom (heap w).
Proof.
  intros Hlive Hauth updated w'.
  split; [|split; [|split]].
  - unfold NSM.login, NSM.call_authenticator, NSM.update_subject_identity,
      NSM.save. run. rewrite Hauth. simpl.
    rewrite lookup_total_insert_eq. fold updated.
    unfold w'. rewrite <- app_assoc. simpl.
    destruct (store_save (subject_store nsm) s updated); reflexivity.
  - simpl. rewrite lookup_total_insert_eq. reflexivity.
  - simpl. rewrite lookup_total_insert_eq. reflexivity.
  - simpl. rewrite dom_insert_L.
    apply subseteq_union_1_L, singleton_subseteq_l, elem_of_dom. exact Hlive.
Qed.

(** *** Logout *)

(** The remember-me logout hook is best effort: it never raises. *)
Lemma before_logout_run (nsm : SecurityManager) (s : loc) (w : World) :
  NSM.before_logout nsm s w =
    (Ok tt,
     mkWorld (heap w)
       (log w ++ match remember_me_manager nsm with
                 | Some _ => [ForgetIdentity (OfSubject s)]
                 | None => []
                 end)).
Proof.
  unfold NSM.before_logout, NSM.remember_me_logout.
  destruct (remember_me_manager nsm) as [rmm|].
  - unfold RMM.on_logout, try_except. rewrite forget_identity_run.
    destruct (forget_identity_hook rmm (OfSubject s)); reflexivity.
  - rewrite app_nil_r. destruct w; reflexivity.
Qed.

(** C4: logout of None raises ValueError before anything runs.  For a
    subject, whatever the subject store's delete and the session's stop do,
    return or raise, logout returns normally, and after the delete it asks
    the subject for its session and, if there is one, stops it. *)
Theorem logout_cleanup_steps_independent (nsm : SecurityManager) (w : World) :
  NSM.logout nsm None w = (Raise ValueError, w)
  /\ forall s : loc,
       NSM.logout nsm (Some s) w =
         (Ok tt,
          mkWorld (heap w)
            (log w
             ++ match remember_me_manager nsm with
                | Some _ => [ForgetIdentity (OfSubject s)]
                | None => []
                end
             ++ [Delete s; SubjectGetSession s]
             ++ match session (heap w !!! s) with
                | Some sess => [SessionStop sess (identifiers (heap w !!! s))]
                | None => []
                end)).
Proof.
  split; [reflexivity|].
  intros s. unfold NSM.logout. unfold bind at 1. rewrite before_logout_run.
  unfold NSM.delete, NSM.stop_session. run.
  destruct (store_delete (subject_store nsm) s (heap w !!! s)); simpl;
    destruct (session (heap w !!! s)) as [sess|]; simpl;
    try destruct (session_stop (session_manager nsm) sess _); simpl;
    rewrite <- ?app_assoc; reflexivity.
Qed.

Import Examples.

(** Counterexample for C2 as stated: the fetch raises, and
    resolve_identifiers returns the context instead of raising. *)
Lemma resolve_identifiers_swallows_retrieval_failure :
  fst (RMM.fetch_and_convert unreadable_rmm anonymous_context one_guest)
    = Raise (OtherException "store unavailable")
  /\ fst (NSM.resolve_identifiers unreadable_manager anonymous_context
            one_guest)
     = Ok anonymous_context
  /\ ctx_identifiers anonymous_context = None.
Proof. repeat split. Qed.

(** Witness for amended C2: a stored ciphertext that fails to decrypt. *)
Lemma remembered_identity_failure_forgotten_then_swallowed_witness :
  RMM.get_remembered_identifiers corrupted_rmm anonymous_context one_guest
  = (Raise (OtherException "InvalidToken"),
     mkWorld (heap one_guest)
       [GetRememberedEncryptedIdentity anonymous_context;
        ForgetIdentity (OfContext anonymous_context)]).
Proof.
  apply (remembered_identity_failure_forgotten_then_swallowed corrupted_rmm
           anonymous_context one_guest (OtherException "InvalidToken")).
  reflexivity.
Defined.

(** Counterexample for C3 as stated: the authenticator's exception carries
    alice's partial account id, the one login raises carries none. *)
Lemma login_continuation_drops_account_id :
  authenticator_authenticate_account
    (authenticator second_factor_manager) None None
    = Raise (AdditionalAuthenticationRequired (Some ["alice"]))
  /\ fst (NSM.login second_factor_manager (Some 0) None one_guest)
     = Raise (AdditionalAuthenticationRequired None)
  /\ fst (NSM.login second_factor_manager (Some 0) None one_guest)
     <> Raise (AdditionalAuthenticationRequired (Some ["alice"])).
Proof. repeat split. discriminate. Qed.

(** Witness for amended C3: the guest at address 0 asked for a second
    factor. *)
Lemma login_additional_authentication_required_witness :
  fst (NSM.login second_factor_manager (Some 0) None one_guest)
    = Raise (AdditionalAuthenticationRequired None)
  /\ identifiers (heap (snd (NSM.login second_factor_manager (Some 0) None
                               one_guest)) !!! 0)
     = Some ["alice"].
Proof.
  pose proof (login_additional_authentication_required second_factor_manager
                0 None one_guest (Some ["alice"])
                (ex_intro _ guest eq_refl) eq_refl) as Hlogin.
  cbv zeta in Hlogin. destruct Hlogin as (Hrun & Hids & _ & _).
  split; [exact (f_equal fst Hrun)|exact Hids].
Defined.

(** Delete and stop both raising: logout still returns, having tried both. *)
Example logout_both_cleanups_raise :
  store_delete (subject_store broken_manager) 0 guest
    = Some (OtherException "delete failed")
  /\ session_stop (session_manager broken_manager) "sid-1" None
     = Some (OtherException "stop failed")
  /\ NSM.logout broken_manager (Some 0) one_guest
     = (Ok tt,
        mkWorld (heap one_guest)
          [Delete 0; SubjectGetSession 0; SessionStop "sid-1" None]).
Proof. repeat split. Qed.

End MgtProps.

(* ===================================================================== *)
(** ** Further properties of the realm                                   *)
(* ===================================================================== *)

Module RealmMore.

Import Realm.

Ltac run :=
  unfold bind, ret, raise, lift, modify, get, attr, try_except,
    on_AttributeError in *; simpl in *.

Section WithPermission.

Context {P : Type} `{Permission P}.

Implicit Types (self : @AccountStoreRealm P) (w : @World P).

(** *** The credentials cache handler *)

Lemma get_cached_credentials_run (h : DefaultCredentialsCacheHandler)
  (authc_token : option Token) w :
  get_cached_credentials h authc_token w =
    (match credentials_cache_resolver h, credentials_cache_key_resolver h with
     | Some cr, Some kr =>
         if get_cache cr (mkArgs authc_token None None)
         then Ok (k ← get_cache_key kr (mkArgs authc_token None None);
                  credentials_cache w !! k)
         else Raise GetCachedCredentialsException
     | _, _ => Raise GetCachedCredentialsException
     end, w).
Proof.
  unfold get_cached_credentials, cache_get. run.
  destruct (credentials_cache_resolver h) as [cr|]; simpl; [|reflexivity].
  destruct (credentials_cache_key_resolver h) as [kr|]; simpl; [|reflexivity].
  destruct (get_cache cr _); reflexivity.
Qed.

Lemma cache_credentials_run (h : DefaultCredentialsCacheHandler)
  (authc_token : option Token) (a : Account) w :
  cache_credentials h authc_token a w =
    match credentials_cache_resolver h, credentials_cache_key_resolver h with
    | Some cr, Some kr =>
        let args := mkArgs authc_token (Some a) None in
        match get_cache_key kr args with
        | Some k =>
            if negb (bool_decide (k = "")) && get_cache cr args
            then (Ok tt,
                  set_credentials_cache (<[k := a]> (credentials_cache w)) w)
            else (Raise CacheCredentialsException, w)
        | None => (Raise CacheCredentialsException, w)
        end
    | _, _ => (Raise CacheCredentialsException, w)
    end.
Proof.
  unfold cache_credentials, cache_put. run.
  destruct (credentials_cache_resolver h) as [cr|]; simpl; [|reflexivity].
  destruct (credentials_cache_key_resolver h) as [kr|]; simpl; [|reflexivity].
  destruct (get_cache_key kr _) as [k|]; simpl; [|reflexivity].
  destruct (negb (bool_decide (k = ""))); simpl; [|reflexivity].
  destruct (get_cache cr _); reflexivity.
Qed.

Lemma handler_clear_run (h : DefaultCredentialsCacheHandler)
  (account_id : string) w :
  handler_clear_cached_credentials h account_id w =
    match credentials_cache_resolver h, credentials_cache_key_resolver h with
    | Some cr, Some kr =>
        let args := mkArgs None None (Some account_id) in
        if get_cache cr args
        then if truthy_key (get_cache_key kr args)
             then (Ok (credentials_cache w !! default "" (get_cache_key kr args)),
                   set_credentials_cache
                     (delete (default "" (get_cache_key kr args))
                        (credentials_cache w)) w)
             else (Ok None, w)
        else (Raise ClearCacheCredentialsException, w)
    | _, _ => (Raise ClearCacheCredentialsException, w)
    end.
Proof.
  unfold handler_clear_cached_credentials, cache_remove. run.
  destruct (credentials_cache_resolver h) as [cr|]; simpl; [|reflexivity].
  destruct (credentials_cache_key_resolver h) as [kr|]; simpl; [|reflexivity].
  destruct (truthy_key (get_cache_key kr _)); simpl;
    destruct (get_cache cr _); reflexivity.
Qed.



(** X3: what is missing in a cache handler is reported as the handler's
    own exception, never as the AttributeError it starts as.  A cache
    resolver or key resolver that was never injected, or a cache resolver
    that returns None, makes get_cached_credentials raise
    GetCachedCredentialsException, cache_credentials raise
    CacheCredentialsException and clear_cached_credentials raise
    ClearCacheCredentialsException; cache_credentials also raises its
    exception for a None or empty key; in all these cases the cache is left
    as it was.  Clearing with a None or empty key and a cache in hand
    returns None and changes nothing. *)
Theorem cache_handler_translates_missing_parts
  (h : DefaultCredentialsCacheHandler) (authc_token : option Token)
  (a : Account) (account_id : string) w :
  (credentials_cache_resolver h = None
   \/ credentials_cache_key_resolver h = None
   \/ (exists cr, credentials_cache_resolver h = Some cr
                  /\ get_cache cr (mkArgs authc_token None None) = false) ->
   get_cached_credentials h authc_token w
   = (Raise GetCachedCredentialsException, w))
  /\ (credentials_cache_resolver h = None
      \/ credentials_cache_key_resolver h = None
      \/ (exists cr, credentials_cache_resolver h = Some cr
                     /\ get_cache cr (mkArgs authc_token (Some a) None) = false)
      \/ (exists kr, credentials_cache_key_resolver h = Some kr
                     /\ truthy_key
                          (get_cache_key kr (mkArgs authc_token (Some a) None))
                        = false) ->
      cache_credentials h authc_token a w
      = (Raise CacheCredentialsException, w))
  /\ (credentials_cache_resolver h = None
      \/ credentials_cache_key_resolver h = None
      \/ (exists cr, credentials_cache_resolver h = Some cr
                     /\ get_cache cr (mkArgs None None (Some account_id))
                        = false) ->
      handler_clear_cached_credentials h account_id w
      = (Raise ClearCacheCredentialsException, w))
  /\ (forall cr kr,
        credentials_cache_resolver h = Some cr ->
        credentials_cache_key_resolver h = Some kr ->
        get_cache cr (mkArgs None None (Some account_id)) = true ->
        truthy_key (get_cache_key kr (mkArgs None None (Some account_id)))
          = false ->
        handler_clear_cached_credentials h account_id w = (Ok None, w)).
Proof.
  rewrite get_cached_credentials_run, cache_credentials_run, handler_clear_run.
  split; [|split; [|split]].
  - intros [-> | [-> | (cr & -> & Hc)]]; simpl.
    + reflexivity.
    + destruct (credentials_cache_resolver h); reflexivity.
    + rewrite Hc. destruct (credentials_cache_key_resolver h); reflexivity.
  - intros [-> | [-> | [(cr & -> & Hc) | (kr & -> & Hk)]]]; simpl.
    + reflexivity.
    + destruct (credentials_cache_resolver h); reflexivity.
    + destruct (credentials_cache_key_resolver h) as [kr|]; [|reflexivity].
      destruct (get_cache_key kr _) as [k|]; [|reflexivity].
      rewrite Hc, andb_false_r. reflexivity.
    + destruct (credentials_cache_resolver h) as [cr|]; [|reflexivity].
      destruct (get_cache_key kr _) as [k|]; [|reflexivity].
      simpl in Hk. rewrite Hk. reflexivity.
  - intros [-> | [-> | (cr & -> & Hc)]]; simpl.
    + reflexivity.
    + destruct (credentials_cache_resolver h); reflexivity.
    + rewrite Hc. destruct (credentials_cache_key_resolver h); reflexivity.
  - intros cr kr -> -> Hc Hk. simpl. rewrite Hc, Hk. reflexivity.
Qed.

(** X4: what cache_credentials stored, get_cached_credentials finds again,
    provided the key resolver gives the token the same key with and without
    the account and the cache resolver hands the cache out for the lookup;
    entries under other keys are as before. *)
Theorem cache_credentials_then_lookup (h : DefaultCredentialsCacheHandler)
  (cr : CacheResolver) (kr : CacheKeyResolver) (authc_token : option Token)
  (a : Account) w w1 :
  credentials_cache_resolver h = Some cr ->
  credentials_cache_key_resolver h = Some kr ->
  cache_credentials h authc_token a w = (Ok tt, w1) ->
  get_cache_key kr (mkArgs authc_token None None)
    = get_cache_key kr (mkArgs authc_token (Some a) None) ->
  get_cache cr (mkArgs authc_token None None) = true ->
  get_cached_credentials h authc_token w1 = (Ok (Some a), w1)
  /\ exists k, get_cache_key kr (mkArgs authc_token (Some a) None) = Some k
               /\ k <> ""
               /\ forall k', k' <> k ->
                    credentials_cache w1 !! k' = credentials_cache w !! k'.
Proof.
  intros Hcr Hkr Hput Hsame Hc.
  rewrite cache_credentials_run, Hcr, Hkr in Hput. simpl in Hput.
  rewrite get_cached_credentials_run, Hcr, Hkr, Hc, Hsame.
  destruct (get_cache_key kr (mkArgs authc_token (Some a) None)) as [k|];
    [|discriminate].
  destruct (bool_decide (k = "")) eqn:Hk; simpl in Hput; [discriminate|].
  destruct (get_cache cr _); simpl in Hput; [|discriminate].
  injection Hput as <-. simpl. rewrite lookup_insert_eq.
  split; [reflexivity|]. exists k. split; [reflexivity|].
  split; [apply bool_decide_eq_false in Hk; exact Hk|].
  intros k' Hne. rewrite lookup_insert_ne by congruence. reflexivity.
Qed.

(** X5: clearing by account id removes what cache_credentials stored and
    returns it, provided the key resolver maps the account id to the key it
    gave the token and account; the lookup then misses, and a second clear
    returns None and changes nothing. *)
Theorem cache_credentials_then_clear (h : DefaultCredentialsCacheHandler)
  (cr : CacheResolver) (kr : CacheKeyResolver) (tok : Token)
  (a : Account) (account_id : string) w w1 :
  credentials_cache_resolver h = Some cr ->
  credentials_cache_key_resolver h = Some kr ->
  cache_credentials h (Some tok) a w = (Ok tt, w1) ->
  get_cache_key kr (mkArgs None None (Some account_id))
    = get_cache_key kr (mkArgs (Some tok) (Some a) None) ->
  get_cache_key kr (mkArgs (Some tok) None None)
    = get_cache_key kr (mkArgs (Some tok) (Some a) None) ->
  get_cache cr (mkArgs None None (Some account_id)) = true ->
  get_cache cr (mkArgs (Some tok) None None) = true ->
  exists w2,
    handler_clear_cached_credentials h account_id w1 = (Ok (Some a), w2)
    /\ get_cached_credentials h (Some tok) w2 = (Ok None, w2)
    /\ handler_clear_cached_credentials h account_id w2 = (Ok None, w2)
    /\ store_calls w2 = store_calls w.
Proof.
  intros Hcr Hkr Hput Hid Hsame Hc1 Hc2.
  rewrite cache_credentials_run, Hcr, Hkr in Hput. simpl in Hput.
  rewrite !handler_clear_run, Hcr, Hkr. simpl. rewrite Hc1, Hid.
  destruct (get_cache_key kr (mkArgs (Some tok) (Some a) None)) as [k|] eqn:Hk;
    [|discriminate].
  simpl. destruct (bool_decide (k = "")) eqn:Hne; simpl in *; [discriminate|].
  destruct (get_cache cr (mkArgs (Some tok) (Some a) None)); [|discriminate].
  injection Hput as <-. simpl.
  eexists. split; [rewrite lookup_insert_eq; reflexivity|].
  split.
  { rewrite get_cached_credentials_run, Hcr, Hkr, Hc2, Hsame. simpl.
    rewrite lookup_delete_eq. reflexivity. }
  split; [|reflexivity].
  rewrite handler_clear_run, Hcr, Hkr. simpl. rewrite Hc1, Hid. simpl.
  rewrite Hne. simpl. rewrite lookup_delete_eq.
  unfold set_credentials_cache. simpl. f_equal. f_equal.
  apply delete_id. apply lookup_delete_eq.
Qed.

(** *** Cache clearing and authorization info *)

(** X1: do_clear_cache clears nothing: for every realm and every
    identifiers it raises NameError at its first step, the credentials
    clear, and leaves both caches and the call log untouched; the
    authorization clear on its own does the same. *)
Theorem do_clear_cache_clears_nothing self (identifiers : string) w :
  do_clear_cache self identifiers w = (Raise NameError, w)
  /\ clear_cached_authorization_info self identifiers w = (Raise NameError, w).
Proof. split; reflexivity. Qed.

(** X2: get_authorization_info only ever returns what the authorization
    cache handed out, and only for identifiers given as a string; without a
    cache handler a configured store is asked once and the call then ends in
    NameError, so nothing fetched from the store is ever returned or
    cached. *)
Theorem get_authorization_info_from_cache_only self
  (identifiers : Identifiers) w :
  (forall authz_info w',
      get_authorization_info self identifiers w = (Ok authz_info, w') ->
      exists h s,
        authorization_cache_handler self = Some h
        /\ identifiers = IdStr s
        /\ get_cached_authorization_info h identifiers w
           = (Ok (Some authz_info), w'))
  /\ (forall st account,
        authorization_cache_handler self = None ->
        account_store self = Some st ->
        get_authz_info st identifiers = Ok account ->
        get_authorization_info self identifiers w
        = (Raise NameError, record_call (GetAuthzInfo identifiers) w))
  /\ (authorization_cache_handler self = None ->
      account_store self = None ->
      get_authorization_info self identifiers w = (Raise AttributeError, w)).
Proof.
  unfold get_authorization_info, store_get_authz_info.
  split; [|split].
  - intros authz_info w'.
    destruct (authorization_cache_handler self) as [h|].
    + run.
      destruct (get_cached_authorization_info h identifiers w)
        as [[[ai|]|e] w1] eqn:Hc; simpl.
      * destruct identifiers as [s|ids]; simpl; [|discriminate].
        intros [= <- <-]. exists h, s. repeat split. exact Hc.
      * destruct identifiers as [s|ids]; simpl; [|discriminate].
        destruct (account_store self) as [st|]; simpl; [|discriminate].
        destruct (get_authz_info st (IdStr s)); discriminate.
      * discriminate.
    + run. destruct (account_store self) as [st|]; simpl; [|discriminate].
      destruct (get_authz_info st identifiers); discriminate.
  - intros st account -> -> Hacc. run. rewrite Hacc. reflexivity.
  - intros -> ->. reflexivity.
Qed.

(** *** get_credentials beyond the cache hit *)

Lemma cache_lookup_miss self (authc_token : option Token) w :
  (forall h, credentials_cache_handler self = Some h ->
             fst (get_cached_credentials h authc_token w) = Ok None) ->
  match credentials_cache_handler self with
  | Some h => get_cached_credentials h authc_token
  | None => ret None
  end w = (Ok None, w).
Proof.
  intros Hmiss.
  destruct (credentials_cache_handler self) as [h|]; [|reflexivity].
  specialize (Hmiss h eq_refl).
  rewrite get_cached_credentials_run in *. simpl in Hmiss.
  rewrite Hmiss. reflexivity.
Qed.

(** X6: on a cache miss with a store configured, an exception of the
    store propagates after the one store call, except that an
    AttributeError raised inside the store is reported as
    RealmMisconfiguredException; an account found for a None token is
    returned but never cached; and without a cache handler the store's
    answer is passed through as it is. *)
Theorem get_credentials_store_outcomes self (st : AccountStore)
  (authc_token : option Token) w :
  (forall h, credentials_cache_handler self = Some h ->
             fst (get_cached_credentials h authc_token w) = Ok None) ->
  account_store self = Some st ->
  (forall e,
      get_account st authc_token = Raise e ->
      get_credentials self authc_token w =
        (Raise (match e with
                | AttributeError => RealmMisconfiguredException
                | _ => e
                end),
         record_call (GetAccount authc_token) w))
  /\ (forall r,
        authc_token = None ->
        get_account st authc_token = Ok r ->
        get_credentials self authc_token w =
          (Ok r, record_call (GetAccount authc_token) w))
  /\ (forall r,
        credentials_cache_handler self = None ->
        get_account st authc_token = Ok r ->
        get_credentials self authc_token w =
          (Ok r, record_call (GetAccount authc_token) w)).
Proof.
  intros Hmiss Hst.
  pose proof (cache_lookup_miss self authc_token w Hmiss) as Hlook.
  repeat split.
  - intros e He. unfold get_credentials. unfold bind at 1. rewrite Hlook.
    unfold bind at 1, try_except.
    rewrite (RealmProps.store_get_account_some self st) by assumption.
    rewrite He. destruct e; reflexivity.
  - intros r -> Hr. unfold get_credentials. unfold bind at 1. rewrite Hlook.
    unfold bind at 1, try_except.
    rewrite (RealmProps.store_get_account_some self st) by assumption.
    rewrite Hr. reflexivity.
  - intros r Hnone Hr. unfold get_credentials. unfold bind at 1.
    rewrite Hlook. unfold bind at 1, try_except.
    rewrite (RealmProps.store_get_account_some self st) by assumption.
    rewrite Hr, Hnone. destruct authc_token, r; reflexivity.
Qed.


(** *** Authentication attempts *)

Lemma get_credentials_hit self (h : DefaultCredentialsCacheHandler)
  (cr : CacheResolver) (kr : CacheKeyResolver) (tok : Token) (k : string)
  (a : Account) w :
  credentials_cache_handler self = Some h ->
  credentials_cache_resolver h = Some cr ->
  credentials_cache_key_resolver h = Some kr ->
  get_cache cr (mkArgs (Some tok) None None) = true ->
  get_cache_key kr (mkArgs (Some tok) None None) = Some k ->
  credentials_cache w !! k = Some a ->
  get_credentials self (Some tok) w = (Ok (Some a), w).
Proof.
  intros Hh Hcr Hkr Hc Hk Hin. unfold get_credentials. rewrite Hh.
  unfold bind at 1. rewrite get_cached_credentials_run, Hcr, Hkr, Hc, Hk.
  simpl. rewrite Hin. reflexivity.
Qed.

Lemma get_credentials_fill self (h : DefaultCredentialsCacheHandler)
  (cr : CacheResolver) (kr : CacheKeyResolver) (st : AccountStore)
  (tok : Token) (k : string) (a : Account) w :
  credentials_cache_handler self = Some h ->
  credentials_cache_resolver h = Some cr ->
  credentials_cache_key_resolver h = Some kr ->
  get_cache cr (mkArgs (Some tok) None None) = true ->
  get_cache cr (mkArgs (Some tok) (Some a) None) = true ->
  get_cache_key kr (mkArgs (Some tok) None None) = Some k ->
  get_cache_key kr (mkArgs (Some tok) (Some a) None) = Some k ->
  k <> "" ->
  credentials_cache w !! k = None ->
  account_store self = Some st ->
  get_account st (Some tok) = Ok (Some a) ->
  get_credentials self (Some tok) w =
    (Ok (Some a),
     mkWorld (<[k := a]> (credentials_cache w)) (authorization_cache w)
       (store_calls w ++ [GetAccount (Some tok)])).
Proof.
  intros Hh Hcr Hkr Hc Hc' Hk Hk' Hne Hmiss Hst Hacc.
  unfold get_credentials. rewrite Hh.
  unfold bind at 1. rewrite get_cached_credentials_run, Hcr, Hkr, Hc, Hk.
  simpl. rewrite Hmiss.
  unfold bind at 1, try_except.
  rewrite (RealmProps.store_get_account_some self st) by assumption.
  rewrite Hacc. unfold bind at 1.
  rewrite cache_credentials_run, Hcr, Hkr. simpl. rewrite Hk', Hc'.
  rewrite bool_decide_eq_false_2 by exact Hne. reflexivity.
Qed.

(** X8: a rejected attempt leaves the fetched account in the cache.  With a
    working cache handler, a token whose key is not cached and whose account
    the matcher rejects ends in IncorrectCredentialsException after one
    store call, with the account cached under the token's key; the next
    attempt with that token is rejected again without any store call. *)
Theorem rejected_attempt_keeps_account_cached self
  (h : DefaultCredentialsCacheHandler) (cr : CacheResolver)
  (kr : CacheKeyResolver) (st : AccountStore) (tok : Token) (k : string)
  (a : Account) w :
  credentials_cache_handler self = Some h ->
  credentials_cache_resolver h = Some cr ->
  credentials_cache_key_resolver h = Some kr ->
  get_cache cr (mkArgs (Some tok) None None) = true ->
  get_cache cr (mkArgs (Some tok) (Some a) None) = true ->
  get_cache_key kr (mkArgs (Some tok) None None) = Some k ->
  get_cache_key kr (mkArgs (Some tok) (Some a) None) = Some k ->
  k <> "" ->
  credentials_cache w !! k = None ->
  account_store self = Some st ->
  get_account st (Some tok) = Ok (Some a) ->
  credentials_matcher self (Some tok) (Some a) = false ->
  let w1 := mkWorld (<[k := a]> (credentials_cache w)) (authorization_cache w)
              (store_calls w ++ [GetAccount (Some tok)]) in
  authenticate_account self (Some tok) w
    = (Raise IncorrectCredentialsException, w1)
  /\ authenticate_account self (Some tok) w1
     = (Raise IncorrectCredentialsException, w1).
Proof.
  intros Hh Hcr Hkr Hc Hc' Hk Hk' Hne Hmiss Hst Hacc Hrej w1.
  split.
  - unfold authenticate_account, assert_credentials_match.
    unfold bind at 1.
    rewrite (get_credentials_fill self h cr kr st tok k a w) by assumption.
    fold w1. unfold bind at 1. rewrite Hrej. reflexivity.
  - unfold authenticate_account, assert_credentials_match.
    unfold bind at 1.
    assert (Hin : credentials_cache w1 !! k = Some a)
      by (unfold w1; simpl; apply lookup_insert_eq).
    rewrite (get_credentials_hit self h cr kr tok k a w1) by assumption.
    unfold bind at 1. rewrite Hrej. reflexivity.
Qed.

(** Nothing after get_credentials touches the world, and every path of
    authenticate_account ends in a raise. *)
Lemma authenticate_account_run self (authc_token : option Token) w :
  snd (authenticate_account self authc_token w)
    = snd (get_credentials self authc_token w)
  /\ exists e, fst (authenticate_account self authc_token w) = Raise e.
Proof.
  unfold authenticate_account, assert_credentials_match,
    clear_cached_credentials.
  run.
  destruct (get_credentials self authc_token w) as [[account|e] w1]; simpl;
    [|eauto].
  destruct (credentials_matcher self authc_token account); simpl; [|eauto].
  destruct authc_token; simpl; eauto.
Qed.

(** get_credentials only ever adds to the credentials cache. *)
Lemma get_credentials_keeps_entries self (authc_token : option Token) w
  (k : string) :
  is_Some (credentials_cache w !! k) ->
  is_Some (credentials_cache (snd (get_credentials self authc_token w)) !! k).
Proof.
  intros Hk. unfold get_credentials.
  assert (Hstore : forall w0,
    credentials_cache w0 = credentials_cache w ->
    is_Some (credentials_cache
               (snd (try_except (store_get_account self authc_token)
                       (on_AttributeError RealmMisconfiguredException) w0))
             !! k)).
  { intros w0 Hw0. unfold store_get_account. run.
    destruct (account_store self) as [st|]; simpl; [|rewrite Hw0; exact Hk].
    destruct (get_account st authc_token) as [r|e]; simpl;
      [rewrite Hw0; exact Hk|].
    destruct e; simpl; rewrite Hw0; exact Hk. }
  unfold bind at 1.
  destruct (credentials_cache_handler self) as [h|].
  - pose proof (RealmProps.get_cached_credentials_reads h authc_token w)
      as Hread.
    destruct (get_cached_credentials h authc_token w) as [[[a|]|e] w0];
      simpl in Hread; subst w0; simpl; try exact Hk.
    unfold bind at 1.
    pose proof (Hstore w eq_refl) as Hs.
    destruct (try_except (store_get_account self authc_token)
                (on_AttributeError RealmMisconfiguredException) w)
      as [[acc|e] w1]; simpl in *; [|exact Hs].
    destruct authc_token as [tok|], acc as [a|]; simpl; try exact Hs.
    unfold bind at 1. rewrite cache_credentials_run.
    destruct (credentials_cache_resolver h) as [cr|],
             (credentials_cache_key_resolver h) as [kr|]; simpl;
      try exact Hs.
    destruct (get_cache_key kr _) as [k'|]; simpl; [|exact Hs].
    destruct (negb _ && _); simpl; [|exact Hs].
    apply lookup_insert_is_Some'. right. exact Hs.
  - unfold ret at 1. unfold bind at 1.
    pose proof (Hstore w eq_refl) as Hs.
    destruct (try_except (store_get_account self authc_token)
                (on_AttributeError RealmMisconfiguredException) w)
      as [[acc|e] w1]; simpl in *; [|exact Hs].
    destruct authc_token as [tok|], acc as [a|]; simpl; exact Hs.
Qed.

(** X9: authenticate_account never returns an account: for every realm,
    token and world its result is a raise; and it never removes an entry of
    the credentials cache. *)
Theorem authenticate_account_never_returns self
  (authc_token : option Token) w :
  (exists e, fst (authenticate_account self authc_token w) = Raise e)
  /\ forall k,
       is_Some (credentials_cache w !! k) ->
       is_Some (credentials_cache
                  (snd (authenticate_account self authc_token w)) !! k).
Proof.
  destruct (authenticate_account_run self authc_token w) as [Hw He].
  split; [exact He|].
  intros k Hk. rewrite Hw. apply get_credentials_keeps_entries. exact Hk.
Qed.

(** *** Permission and role checks *)

Lemma resolve_each_ok (r : PermArg -> result P) (f : PermArg -> P)
  (l : list PermArg) :
  (forall x, x ∈ l -> r x = Ok (f x)) ->
  resolve_each (Some r) l = Ok (f <$> l).
Proof.
  induction l as [|x l IH]; intros Hr; [reflexivity|]. simpl.
  rewrite (Hr x) by left.
  rewrite IH by (intros y Hy; apply Hr; right; exact Hy). reflexivity.
Qed.

(** X10: resolve_permissions never raises AttributeError or TypeError (it
    answers them with the empty set); what it returns has no duplicates;
    without a permission resolver it returns the empty set; and with a
    resolver that resolves every element it returns exactly the resolved
    permissions. *)
Theorem resolve_permissions_behaviour self (string_perms : list PermArg) :
  resolve_permissions self string_perms <> Raise AttributeError
  /\ resolve_permissions self string_perms <> Raise TypeError
  /\ (forall perms, resolve_permissions self string_perms = Ok perms ->
                    NoDup perms)
  /\ (permission_resolver self = None ->
      resolve_permissions self string_perms = Ok [])
  /\ (forall r f,
        permission_resolver self = Some r ->
        (forall x, x ∈ string_perms -> r x = Ok (f x)) ->
        exists perms,
          resolve_permissions self string_perms = Ok perms
          /\ forall p, p ∈ perms <-> exists x, x ∈ string_perms /\ p = f x).
Proof.
  unfold resolve_permissions.
  split; [|split; [|split; [|split]]].
  - destruct (resolve_each _ _) as [ps|e]; [discriminate|].
    destruct e; discriminate.
  - destruct (resolve_each _ _) as [ps|e]; [discriminate|].
    destruct e; discriminate.
  - intros perms.
    destruct (resolve_each _ _) as [ps|e].
    + intros [= <-]. apply NoDup_remove_dups.
    + destruct e; try discriminate; intros [= <-]; constructor.
  - intros ->. destruct string_perms; reflexivity.
  - intros r f -> Hr. rewrite (resolve_each_ok r f) by exact Hr.
    eexists. split; [reflexivity|].
    intros p. rewrite elem_of_remove_dups, list_elem_of_fmap.
    split; intros (x & H1 & H2); exists x; split; assumption.
Qed.

(** The outer loop yields the pairs of a prefix of Permissions that all
    have a domain, then goes on with what follows. *)
Lemma is_permitted_loop_prefix (authz_info : AuthorizationInfo)
  (pre : list P) (rest : list PermArg) :
  Forall (fun q => domain q <> []) pre ->
  is_permitted_loop authz_info ((VPerm <$> pre) ++ rest) =
    (((fun q =>
         (VPerm q,
          fst (scan_authorized
                 (frozenset_chain (get_permission authz_info "*")
                    (get_permission authz_info (hd "" (domain q)))) q)))
        <$> pre) ++ fst (is_permitted_loop authz_info rest),
     snd (is_permitted_loop authz_info rest)).
Proof.
  induction 1 as [|q l Hq _ IH]; simpl.
  - destruct (is_permitted_loop authz_info rest); reflexivity.
  - destruct (domain q) as [|d ds] eqn:Hd; [congruence|].
    rewrite (RealmProps.get_authzd_permissions_perm authz_info q d ds Hd).
    change (list_fmap P PermArg VPerm l) with (VPerm <$> l).
    rewrite IH. reflexivity.
Qed.

Lemma requested_perms_permissions self (q : P) (l : list P)
  (rest : list PermArg) :
  requested_perms self (PyList ((VPerm <$> q :: l) ++ rest))
    = Ok ((VPerm <$> q :: l) ++ rest).
Proof. reflexivity. Qed.

(** X11: for a non-empty list of Permissions that all have a domain, and
    the authorization info resolved, is_permitted ends normally having
    yielded exactly one pair per requested permission, in the order of the
    list, each flag true exactly when a permission stored under ["*"] or
    under the request's domain implies it. *)
Theorem is_permitted_one_pair_per_request self (identifiers : Identifiers)
  w w' (authz_info : AuthorizationInfo) (q : P) (reqs : list P) :
  get_authorization_info self identifiers w = (Ok authz_info, w') ->
  Forall (fun p => domain p <> []) (q :: reqs) ->
  exists ys,
    is_permitted self identifiers (PyList (VPerm <$> q :: reqs)) w
      = ((ys, Ok tt), w')
    /\ ys.*1 = VPerm <$> q :: reqs
    /\ Forall2
         (fun p y =>
            y.2 = true <->
            exists c, (c ∈ get_permission authz_info "*"
                       \/ c ∈ get_permission authz_info (hd "" (domain p)))
                      /\ implies c p = true)
         (q :: reqs) ys.
Proof.
  intros Hinfo Hdom.
  eexists. split.
  { unfold is_permitted.
    rewrite <- (app_nil_r (VPerm <$> q :: reqs)).
    rewrite requested_perms_permissions, Hinfo, app_nil_r.
    rewrite (RealmProps.is_permitted_loop_perms authz_info (q :: reqs) Hdom).
    reflexivity. }
  split.
  { rewrite <- list_fmap_compose. reflexivity. }
  clear Hdom Hinfo. generalize (q :: reqs). intros l.
  induction l as [|p l IH]; constructor; [|exact IH].
  simpl. rewrite RealmProps.scan_authorized_true_iff.
  split; intros (c & Hc & Himp); exists c; split; try assumption;
    apply RealmProps.elem_of_frozenset_chain; exact Hc.
Qed.

(** X12: commingling is found out late.  In a list that starts with
    Permissions, the first element that is a string ends the generator with
    AttributeError after the pairs for the Permissions before it have been
    yielded; nothing after it is looked at. *)
Theorem is_permitted_stops_at_first_bad_element self
  (identifiers : Identifiers) w w' (authz_info : AuthorizationInfo)
  (q : P) (pre : list P) (s : string) (rest : list PermArg) :
  get_authorization_info self identifiers w = (Ok authz_info, w') ->
  Forall (fun p => domain p <> []) (q :: pre) ->
  exists ys,
    is_permitted self identifiers
      (PyList ((VPerm <$> q :: pre) ++ VStr s :: rest)) w
    = ((ys, Raise AttributeError), w')
    /\ ys.*1 = VPerm <$> q :: pre
    /\ Forall2
         (fun p y =>
            y.2 = true <->
            exists c, (c ∈ get_permission authz_info "*"
                       \/ c ∈ get_permission authz_info (hd "" (domain p)))
                      /\ implies c p = true)
         (q :: pre) ys.
Proof.
  intros Hinfo Hdom.
  eexists. split.
  { unfold is_permitted.
    rewrite requested_perms_permissions, Hinfo.
    rewrite (is_permitted_loop_prefix authz_info (q :: pre) _ Hdom).
    simpl fst. simpl snd. rewrite app_nil_r. reflexivity. }
  split; [rewrite <- list_fmap_compose; reflexivity|].
  clear Hdom Hinfo. generalize (q :: pre). intros l.
  induction l as [|p l IH]; constructor; [|exact IH].
  simpl. rewrite RealmProps.scan_authorized_true_iff.
  split; intros (c & Hc & Himp); exists c; split; try assumption;
    apply RealmProps.elem_of_frozenset_chain; exact Hc.
Qed.

(** X13: string permissions without a permission resolver are dropped in
    silence: given a list headed by a string, a realm with no resolver set
    and the authorization info resolved, is_permitted yields no pair at all
    and ends normally. *)
Theorem is_permitted_strings_without_resolver self
  (identifiers : Identifiers) w w' (authz_info : AuthorizationInfo)
  (s : string) (l : list PermArg) :
  permission_resolver self = None ->
  get_authorization_info self identifiers w = (Ok authz_info, w') ->
  is_permitted self identifiers (PyList (VStr s :: l)) w = (([], Ok tt), w').
Proof.
  intros Hres Hinfo. unfold is_permitted, requested_perms, resolve_permissions.
  simpl. rewrite Hres, Hinfo. reflexivity.
Qed.

(** X14: with the authorization info resolved, has_role yields one pair
    per role id of the requested set, the flag telling whether the role is
    among the info's role ids, and has_all_roles answers true exactly when
    every flag has_role yields is true; for the empty set has_role yields
    nothing and has_all_roles answers true. *)
Theorem has_role_agrees_with_has_all_roles self (identifiers : Identifiers)
  (roleid_s : gset string) w w' (authz_info : AuthorizationInfo) :
  get_authorization_info self identifiers w = (Ok authz_info, w') ->
  exists ys,
    has_role self identifiers roleid_s w = ((ys, Ok tt), w')
    /\ ys.*1 = elements roleid_s
    /\ (forall r b, (r, b) ∈ ys -> (b = true <-> r ∈ roleids authz_info))
    /\ (has_all_roles self identifiers roleid_s w = (Ok true, w')
        <-> forall r b, (r, b) ∈ ys -> b = true)
    /\ (roleid_s = ∅ ->
        ys = []
        /\ has_all_roles self identifiers roleid_s w = (Ok true, w')).
Proof.
  intros Hinfo.
  assert (Hall : has_all_roles self identifiers roleid_s w =
                   (Ok (bool_decide (roleid_s ⊆ roleids authz_info)), w')).
  { unfold has_all_roles, bind. rewrite Hinfo. reflexivity. }
  eexists. split; [unfold has_role; rewrite Hinfo; reflexivity|].
  assert (Hmem : forall r b,
    (r, b) ∈ (fun roleid =>
                (roleid, bool_decide ({[ roleid ]} ⊆ roleids authz_info)))
               <$> elements roleid_s ->
    r ∈ roleid_s /\ (b = true <-> r ∈ roleids authz_info)).
  { intros r b Hin. apply list_elem_of_fmap in Hin as (r' & [= -> ->] & Hr').
    split; [apply elem_of_elements; exact Hr'|].
    rewrite bool_decide_eq_true. apply singleton_subseteq_l. }
  split.
  { rewrite <- list_fmap_compose. apply list_fmap_id. }
  split; [intros r b Hin; apply (Hmem r b Hin)|].
  split.
  - rewrite Hall. split.
    + intros [= Hsub]. apply bool_decide_eq_true in Hsub.
      intros r b Hin. destruct (Hmem r b Hin) as [Hr Hb].
      apply Hb, Hsub, Hr.
    + intros Hflags. f_equal. f_equal. apply bool_decide_eq_true.
      intros r Hr.
      assert (Hin : (r, bool_decide ({[ r ]} ⊆ roleids authz_info))
                    ∈ (fun roleid =>
                         (roleid,
                          bool_decide ({[ roleid ]} ⊆ roleids authz_info)))
                        <$> elements roleid_s).
      { apply list_elem_of_fmap. exists r.
        split; [reflexivity|apply elem_of_elements; exact Hr]. }
      apply (Hmem _ _ Hin), (Hflags _ _ Hin).
  - intros ->. rewrite elements_empty. split; [reflexivity|].
    rewrite Hall. f_equal. f_equal. apply bool_decide_eq_true.
    apply empty_subseteq.
Qed.

End WithPermission.

Import Examples.

(** Witness for X4: alice's account cached on an empty cache is found. *)
Lemma cache_credentials_then_lookup_witness :
  get_cached_credentials (P := SimplePermission) default_handler
    (Some alice_token) alice_cached
  = (Ok (Some alice_account), alice_cached).
Proof.
  refine (proj1 (cache_credentials_then_lookup default_handler
                   the_cache_resolver by_identifier (Some alice_token)
                   alice_account empty_world alice_cached _ _ _ _ _));
    reflexivity.
Defined.

(** Witness for X5: the cached account cleared by account id. *)
Lemma cache_credentials_then_clear_witness :
  exists w2 : @World SimplePermission,
    handler_clear_cached_credentials default_handler "alice" alice_cached
      = (Ok (Some alice_account), w2)
    /\ get_cached_credentials default_handler (Some alice_token) w2
       = (Ok None, w2)
    /\ handler_clear_cached_credentials default_handler "alice" w2
       = (Ok None, w2)
    /\ store_calls w2 = store_calls empty_world.
Proof.
  refine (cache_credentials_then_clear default_handler the_cache_resolver
            by_identifier alice_token alice_account "alice" empty_world
            alice_cached _ _ _ _ _ _ _); reflexivity.
Defined.

(** Witness for X6: a store that fails inside with AttributeError. *)
Lemma get_credentials_store_outcomes_witness :
  get_credentials faulty_realm (Some alice_token) empty_world
  = (Raise RealmMisconfiguredException,
     record_call (GetAccount (Some alice_token)) empty_world).
Proof.
  refine (proj1 (get_credentials_store_outcomes faulty_realm faulty_store
                   (Some alice_token) empty_world _ _) AttributeError _).
  - intros h [= <-]. reflexivity.
  - reflexivity.
  - reflexivity.
Defined.


(** Witness for X8: alice's name with a wrong password, twice. *)
Lemma rejected_attempt_keeps_account_cached_witness :
  let w1 : @World SimplePermission :=
    mkWorld {[ "alice" := alice_account ]} ∅ [GetAccount (Some wrong_token)] in
  authenticate_account full_realm (Some wrong_token) empty_world
    = (Raise IncorrectCredentialsException, w1)
  /\ authenticate_account full_realm (Some wrong_token) w1
     = (Raise IncorrectCredentialsException, w1).
Proof.
  refine (rejected_attempt_keeps_account_cached full_realm default_handler
            the_cache_resolver by_identifier alice_store wrong_token "alice"
            alice_account empty_world _ _ _ _ _ _ _ _ _ _ _ _);
    try reflexivity.
  discriminate.
Defined.

(** Witness for X11: a files request and a network request in one call. *)
Lemma is_permitted_one_pair_per_request_witness :
  exists ys,
    is_permitted full_realm (IdStr "alice")
      (PyList (VPerm <$> [mkPerm "files" "read"; mkPerm "network" "read"]))
      empty_world
    = ((ys, Ok tt), empty_world)
    /\ ys.*1 = VPerm <$> [mkPerm "files" "read"; mkPerm "network" "read"]
    /\ Forall2
         (fun p y =>
            y.2 = true <->
            exists c, (c ∈ get_permission alice_authz "*"
                       \/ c ∈ get_permission alice_authz (hd "" (domain p)))
                      /\ implies c p = true)
         [mkPerm "files" "read"; mkPerm "network" "read"] ys.
Proof.
  refine (is_permitted_one_pair_per_request
            (H := SimplePermission_Permission) full_realm (IdStr "alice")
            empty_world empty_world alice_authz (mkPerm "files" "read")
            [mkPerm "network" "read"] _ _).
  - reflexivity.
  - repeat constructor; discriminate.
Defined.

(** Witness for X12: a Permission followed by a string. *)
Lemma is_permitted_stops_at_first_bad_element_witness :
  exists ys,
    is_permitted full_realm (IdStr "alice")
      (PyList ((VPerm <$> [mkPerm "files" "read"]) ++ [VStr "files:read"]))
      empty_world
    = ((ys, Raise AttributeError), empty_world)
    /\ ys.*1 = VPerm <$> [mkPerm "files" "read"]
    /\ Forall2
         (fun p y =>
            y.2 = true <->
            exists c, (c ∈ get_permission alice_authz "*"
                       \/ c ∈ get_permission alice_authz (hd "" (domain p)))
                      /\ implies c p = true)
         [mkPerm "files" "read"] ys.
Proof.
  refine (is_permitted_stops_at_first_bad_element
            (H := SimplePermission_Permission) full_realm (IdStr "alice")
            empty_world empty_world alice_authz (mkPerm "files" "read") []
            "files:read" [] _ _).
  - reflexivity.
  - repeat constructor; discriminate.
Defined.

(** Witness for X13: the realm of the examples has no resolver set. *)
Lemma is_permitted_strings_without_resolver_witness :
  is_permitted full_realm (IdStr "alice") (PyList [VStr "files:read"])
    empty_world
  = (([], Ok tt), empty_world).
Proof.
  refine (is_permitted_strings_without_resolver
            (H := SimplePermission_Permission) full_realm (IdStr "alice")
            empty_world empty_world alice_authz "files:read" [] _ _);
    reflexivity.
Defined.

(** Witness for X14: alice asked about admin and superuser. *)
Lemma has_role_agrees_with_has_all_roles_witness :
  exists ys,
    has_role full_realm (IdStr "alice") {[ "admin"; "superuser" ]} empty_world
      = ((ys, Ok tt), empty_world)
    /\ ys.*1 = elements ({[ "admin"; "superuser" ]} : gset string)
    /\ (forall r b, (r, b) ∈ ys -> (b = true <-> r ∈ roleids alice_authz))
    /\ (has_all_roles full_realm (IdStr "alice") {[ "admin"; "superuser" ]}
          empty_world = (Ok true, empty_world)
        <-> forall r b, (r, b) ∈ ys -> b = true)
    /\ (({[ "admin"; "superuser" ]} : gset string) = ∅ ->
        ys = []
        /\ has_all_roles full_realm (IdStr "alice")
             {[ "admin"; "superuser" ]} empty_world = (Ok true, empty_world)).
Proof.
  refine (has_role_agrees_with_has_all_roles full_realm (IdStr "alice")
            {[ "admin"; "superuser" ]} empty_world empty_world alice_authz _).
  reflexivity.
Defined.

End RealmMore.

(* ===================================================================== *)
(** ** Further properties of the remember-me and security managers       *)
(* ===================================================================== *)

Module MgtMore.

Import Mgt.

Module RMM := Mgt.AbstractRememberMeManager.
Module NSM := Mgt.NativeSecurityManager.

Ltac run :=
  unfold bind, ret, raise, lift, modify, get, attr, try_except, try_finally,
    outcome, swallow, record_event, set_heap in *; simpl in *.

(** *** Retrieval and the round trip *)

(** X15: get_remembered_identifiers forgets exactly when it fails: a
    normal return has only asked the persistence hook, a raise has asked
    the hook and then forgotten the identity once; the heap is never
    touched; and when the hook has nothing stored, None or empty bytes, the
    result is None with nothing decrypted. *)
Theorem get_remembered_identifiers_forgets_iff_failure
  (rmm : RememberMeManager) (c : SubjectContext) (w : World) :
  exists r w',
    RMM.get_remembered_identifiers rmm c w = (r, w')
    /\ heap w' = heap w
    /\ ((exists ids, r = Ok ids)
        /\ log w' = log w ++ [GetRememberedEncryptedIdentity c]
        \/ (exists e, r = Raise e)
           /\ log w' = log w ++ [GetRememberedEncryptedIdentity c;
                                 ForgetIdentity (OfContext c)])
    /\ (get_remembered_encrypted_identity_hook rmm c = Ok None
        \/ get_remembered_encrypted_identity_hook rmm c = Ok (Some []) ->
        r = Ok None).
Proof.
  unfold RMM.get_remembered_identifiers, try_except.
  pose proof (MgtProps.fetch_and_convert_world rmm c w) as Hw.
  assert (Hnone :
    get_remembered_encrypted_identity_hook rmm c = Ok None
    \/ get_remembered_encrypted_identity_hook rmm c = Ok (Some []) ->
    fst (RMM.fetch_and_convert rmm c w) = Ok None).
  { unfold RMM.fetch_and_convert, RMM.get_remembered_encrypted_identity. run.
    intros [-> | ->]; reflexivity. }
  destruct (RMM.fetch_and_convert rmm c w) as [[ids|e] w1]; simpl in *;
    subst w1.
  - eexists _, _. split; [reflexivity|]. split; [reflexivity|].
    split; [left; eauto|]. exact Hnone.
  - unfold RMM.on_remembered_identifiers_failure, bind.
    rewrite MgtProps.forget_identity_run. simpl.
    destruct (forget_identity_hook rmm (OfContext c)) as [e'|];
      (eexists _, _; split; [reflexivity|]; split; [reflexivity|];
       split; [right; split; [eauto|simpl; rewrite <- app_assoc; reflexivity]|];
       intros Hh; specialize (Hnone Hh); discriminate).
Qed.

(** X16: remember, then retrieve.  For a token that asks to be remembered,
    with the forget hook returning, a codec whose deserialize undoes its
    serialize on this account id and a cipher whose decrypt under the
    decryption key undoes its encrypt under the encryption key,
    on_successful_login hands the ciphertext [enc] to the persistence hook;
    and whenever the persistence hook hands that non-empty [enc] back,
    get_remembered_identifiers returns the account id without forgetting
    anything. *)
Theorem remembered_identity_round_trip (rmm : RememberMeManager)
  (sm : SerializationManager) (subject : loc) (tok : Token)
  (account_id : option Ids) (c : SubjectContext) (serialized enc : bytes)
  (w : World) :
  is_remember_me tok = true ->
  forget_identity_hook rmm (OfSubject subject) = None ->
  serialization_manager rmm = Some sm ->
  serialize sm account_id = Ok serialized ->
  deserialize sm serialized = Ok account_id ->
  encrypt_with (fernet rmm) (encryption_cipher_key rmm) serialized = Ok enc ->
  decrypt_with (fernet rmm) (decryption_cipher_key rmm) enc = Ok serialized ->
  enc <> [] ->
  get_remembered_encrypted_identity_hook rmm c = Ok (Some enc) ->
  log (snd (RMM.on_successful_login rmm subject (Some tok) account_id w))
    = log w ++ [ForgetIdentity (OfSubject subject);
                RememberEncryptedIdentity subject enc]
  /\ forall w1,
       RMM.get_remembered_identifiers rmm c w1 =
         (Ok account_id,
          mkWorld (heap w1) (log w1 ++ [GetRememberedEncryptedIdentity c])).
Proof.
  intros Hrm Hf Hsm Hser Hdes Henc Hdec Hne Hget. split.
  - unfold RMM.on_successful_login, RMM.remember_identity,
      RMM.get_identity_to_remember, RMM.convert_identifiers_to_bytes,
      RMM.encrypt, RMM.remember_encrypted_identity, RMM.forget_identity.
    run. rewrite Hf. simpl. rewrite Hrm. simpl. rewrite Hsm. simpl.
    rewrite Hser. simpl. rewrite Henc. simpl.
    destruct (remember_encrypted_identity_hook rmm subject enc); simpl;
      rewrite <- app_assoc; reflexivity.
  - intros w1.
    unfold RMM.get_remembered_identifiers, RMM.fetch_and_convert,
      RMM.get_remembered_encrypted_identity, RMM.convert_bytes_to_identifiers,
      RMM.decrypt.
    run. rewrite Hget. simpl.
    destruct enc as [|b enc]; [congruence|]. simpl.
    rewrite Hdec. simpl. rewrite Hsm. simpl. rewrite Hdes. reflexivity.
Qed.

(** *** Best-effort hooks *)

Lemma rmm_on_successful_login_heap (rmm : RememberMeManager) (subject : loc)
  (authc_token : option Token) (account_id : option Ids) (w : World) :
  heap (snd (RMM.on_successful_login rmm subject authc_token account_id w))
    = heap w.
Proof.
  unfold RMM.on_successful_login. unfold bind at 1.
  rewrite MgtProps.forget_identity_run.
  destruct (forget_identity_hook rmm (OfSubject subject)); [reflexivity|].
  destruct authc_token as [tok|]; run; [|reflexivity].
  destruct (is_remember_me tok); [|reflexivity].
  unfold RMM.remember_identity, RMM.get_identity_to_remember,
    RMM.convert_identifiers_to_bytes, RMM.encrypt,
    RMM.remember_encrypted_identity.
  run.
  destruct (serialization_manager rmm) as [sm|]; simpl; [|reflexivity].
  destruct (serialize sm account_id); simpl; [|reflexivity].
  destruct (encrypt_with _ _ _); simpl; [|reflexivity].
  destruct (remember_encrypted_identity_hook rmm subject _); reflexivity.
Qed.

(** X17: the security manager's remember-me notifications are best
    effort: with or without a remember-me manager, and whatever its hooks,
    codec and cipher do, the notifications of a successful login, of a
    failed login and of a logout return normally and leave every subject on
    the heap as it was. *)
Theorem remember_me_notifications_never_raise (nsm : SecurityManager)
  (authc_token : option Token) (account_id : option Ids) (authc_exc : exn)
  (subject : loc) (w : World) :
  (fst (NSM.remember_me_successful_login nsm authc_token account_id subject w)
     = Ok tt
   /\ heap (snd (NSM.remember_me_successful_login nsm authc_token account_id
                   subject w)) = heap w)
  /\ (fst (NSM.remember_me_failed_login nsm authc_token authc_exc subject w)
        = Ok tt
      /\ heap (snd (NSM.remember_me_failed_login nsm authc_token authc_exc
                      subject w)) = heap w)
  /\ (fst (NSM.remember_me_logout nsm subject w) = Ok tt
      /\ heap (snd (NSM.remember_me_logout nsm subject w)) = heap w).
Proof.
  unfold NSM.remember_me_successful_login, NSM.remember_me_failed_login,
    NSM.remember_me_logout, RMM.on_failed_login, RMM.on_logout.
  destruct (remember_me_manager nsm) as [rmm|]; [|repeat split].
  unfold try_except, swallow, ret.
  rewrite MgtProps.forget_identity_run.
  pose proof (rmm_on_successful_login_heap rmm subject authc_token account_id
                w) as Hheap.
  destruct (RMM.on_successful_login rmm subject authc_token account_id w)
    as [[[]|e] w1]; simpl in *;
    destruct (forget_identity_hook rmm (OfSubject subject));
    repeat split; assumption.
Qed.

(** *** Login *)

(** X18: a failed login.  When the authenticator raises an exception other
    than AdditionalAuthenticationRequired, login raises that same exception
    and neither creates nor saves nor changes any subject; if the exception
    is an AuthenticationException and a remember-me manager is configured,
    the remembered identity is forgotten once before, whatever the forget
    hook does; otherwise nothing but the authenticator is called.  A None
    subject raises AttributeError before the authenticator is called. *)
Theorem login_failure_propagates (nsm : SecurityManager) (s : loc)
  (authc_token : option Token) (w : World) (e : exn) :
  authenticator_authenticate_account (authenticator nsm)
    (identifiers (heap w !!! s)) authc_token = Raise e ->
  (forall P, e <> AdditionalAuthenticationRequired P) ->
  NSM.login nsm (Some s) authc_token w =
    (Raise e,
     mkWorld (heap w)
       (log w
        ++ Authenticate (identifiers (heap w !!! s)) authc_token
        :: (if is_authentication_exception e
            then match remember_me_manager nsm with
                 | Some _ => [ForgetIdentity (OfSubject s)]
                 | None => []
                 end
            else [])))
  /\ NSM.login nsm None authc_token w = (Raise AttributeError, w).
Proof.
  intros Hauth Hnot. split; [|reflexivity].
  unfold NSM.login, NSM.call_authenticator, NSM.on_failed_login,
    NSM.remember_me_failed_login, RMM.on_failed_login, RMM.forget_identity.
  run. rewrite Hauth. simpl.
  destruct e; simpl; try reflexivity;
    try (destruct (remember_me_manager nsm) as [rmm|]; simpl;
         [destruct (forget_identity_hook rmm (OfSubject s)); simpl;
          rewrite <- app_assoc; reflexivity
         |reflexivity]).
  exfalso. eapply Hnot. reflexivity.
Qed.

(** *** Subject creation *)

Lemma get_remembered_identity_run (nsm : SecurityManager)
  (c : SubjectContext) (w : World) :
  exists ids w',
    NSM.get_remembered_identity nsm c w = (Ok ids, w')
    /\ heap w' = heap w.
Proof.
  unfold NSM.get_remembered_identity.
  destruct (remember_me_manager nsm) as [rmm|]; [|eexists _, _; split; reflexivity].
  unfold try_except, swallow, ret, RMM.get_remembered_identifiers, try_except.
  pose proof (MgtProps.fetch_and_convert_world rmm c w) as Hw.
  destruct (RMM.fetch_and_convert rmm c w) as [[ids|e] w1]; simpl in *;
    subst w1.
  - eexists _, _. split; reflexivity.
  - unfold RMM.on_remembered_identifiers_failure, bind.
    rewrite MgtProps.forget_identity_run. simpl.
    destruct (forget_identity_hook rmm (OfContext c));
      eexists _, _; split; reflexivity.
Qed.

(** X22: resolve_identifiers never raises and never touches the heap.  A
    context that resolves identifiers of its own comes back as it was with
    no remember-me call at all.  Otherwise, without a remember-me manager
    the context comes back as it was; with one, its
    get_remembered_identifiers is run once, and the context comes back with
    exactly the identifiers that call returned set and [remembered] true
    when they are truthy, and as it was when they are falsy or the call
    raised. *)
Theorem resolve_identifiers_never_raises (nsm : SecurityManager)
  (c : SubjectContext) (w : World) :
  exists c' w',
    NSM.resolve_identifiers nsm c w = (Ok c', w')
    /\ heap w' = heap w
    /\ (truthy_ids (ctx_resolve_identifiers (subject_context_class nsm) c
                      (ctx_session c) (heap w)) = true ->
        c' = c /\ w' = w)
    /\ (truthy_ids (ctx_resolve_identifiers (subject_context_class nsm) c
                      (ctx_session c) (heap w)) = false ->
        match remember_me_manager nsm with
        | None => c' = c /\ w' = w
        | Some rmm =>
            w' = snd (RMM.get_remembered_identifiers rmm c w)
            /\ c' = match fst (RMM.get_remembered_identifiers rmm c w) with
                    | Ok ids =>
                        if truthy_ids ids
                        then NSM.set_remembered_identifiers ids c
                        else c
                    | Raise _ => c
                    end
        end).
Proof.
  unfold NSM.resolve_identifiers. unfold bind at 1, get.
  destruct (truthy_ids (ctx_resolve_identifiers _ c (ctx_session c) (heap w)))
    eqn:Hown.
  - exists c, w. repeat split. discriminate.
  - destruct (get_remembered_identity_run nsm c w) as (ids & w' & Hrun & Hheap).
    unfold bind. rewrite Hrun.
    assert (Htie :
      match remember_me_manager nsm with
      | None => ids = None /\ w' = w
      | Some rmm =>
          w' = snd (RMM.get_remembered_identifiers rmm c w)
          /\ ids = match fst (RMM.get_remembered_identifiers rmm c w) with
                   | Ok ids0 => ids0
                   | Raise _ => None
                   end
      end).
    { revert Hrun. unfold NSM.get_remembered_identity.
      destruct (remember_me_manager nsm) as [rmm|].
      - unfold try_except, swallow, ret.
        destruct (RMM.get_remembered_identifiers rmm c w) as [[ids0|e] w1];
          simpl; intros [= <- <-]; split; reflexivity.
      - unfold ret. intros [= <- <-]. split; reflexivity. }
    destruct (truthy_ids ids) eqn:Hids.
    + eexists _, _. split; [reflexivity|]. split; [exact Hheap|].
      split; [discriminate|]. intros _.
      destruct (remember_me_manager nsm) as [rmm|].
      * destruct Htie as [Hw Hi]. split; [exact Hw|].
        destruct (fst (RMM.get_remembered_identifiers rmm c w)) as [ids0|e];
          subst ids; [rewrite Hids; reflexivity|discriminate].
      * destruct Htie as [-> _]. discriminate.
    + eexists _, _. split; [reflexivity|]. split; [exact Hheap|].
      split; [discriminate|]. intros _.
      destruct (remember_me_manager nsm) as [rmm|].
      * destruct Htie as [Hw Hi]. split; [exact Hw|].
        destruct (fst (RMM.get_remembered_identifiers rmm c w)) as [ids0|e];
          subst ids; [rewrite Hids; reflexivity|reflexivity].
      * destruct Htie as [_ ->]. split; reflexivity.
Qed.

(** X21: resolve_session never raises InvalidSessionException and never
    touches the heap.  A context that already resolves a session comes back
    as it was and a context without a session id gets its session set to
    None, in both cases without calling the session manager; with a session
    id the manager is asked once: the session it returns is set, a stale id
    (InvalidSessionException) gives the context back unchanged, and any
    other exception propagates. *)
Theorem resolve_session_behaviour (nsm : SecurityManager)
  (c : SubjectContext) (w : World) :
  fst (NSM.resolve_session nsm c w) <> Raise InvalidSessionException
  /\ heap (snd (NSM.resolve_session nsm c w)) = heap w
  /\ (ctx_resolve_session (subject_context_class nsm) c <> None ->
      NSM.resolve_session nsm c w = (Ok c, w))
  /\ (ctx_resolve_session (subject_context_class nsm) c = None ->
      ctx_session_id c = None ->
      NSM.resolve_session nsm c w = (Ok (NSM.set_session None c), w))
  /\ (forall k,
        ctx_resolve_session (subject_context_class nsm) c = None ->
        ctx_session_id c = Some k ->
        NSM.resolve_session nsm c w =
          (match manager_get_session (session_manager nsm) k with
           | Ok sess => Ok (NSM.set_session sess c)
           | Raise InvalidSessionException => Ok c
           | Raise e => Raise e
           end,
           mkWorld (heap w) (log w ++ [ManagerGetSession k]))).
Proof.
  unfold NSM.resolve_session, NSM.resolve_context_session,
    NSM.get_session_key, NSM.get_session.
  destruct (ctx_resolve_session (subject_context_class nsm) c) as [sess|].
  { repeat split; try discriminate; try congruence. }
  destruct (ctx_session_id c) as [k|]; run.
  - split; [|split; [|split; [|split]]]; try congruence.
    + destruct (manager_get_session (session_manager nsm) k) as [sess|e];
        simpl; [discriminate|]. destruct e; discriminate.
    + destruct (manager_get_session (session_manager nsm) k) as [sess|e];
        simpl; [reflexivity|]. destruct e; reflexivity.
    + intros k' _ [= <-].
      destruct (manager_get_session (session_manager nsm) k) as [sess|e];
        simpl; [reflexivity|]. destruct e; reflexivity.
  - repeat split; try discriminate; try congruence.
Qed.

Lemma resolve_session_heap (nsm : SecurityManager) (c : SubjectContext)
  (w : World) :
  heap (snd (NSM.resolve_session nsm c w)) = heap w.
Proof.
  unfold NSM.resolve_session, NSM.resolve_context_session,
    NSM.get_session_key, NSM.get_session.
  destruct (ctx_resolve_session (subject_context_class nsm) c);
    [reflexivity|].
  destruct (ctx_session_id c) as [k|]; run; [|reflexivity].
  destruct (manager_get_session (session_manager nsm) k) as [sess|e];
    simpl; [reflexivity|]. destruct e; reflexivity.
Qed.

Lemma resolve_identifiers_ok (nsm : SecurityManager) (c : SubjectContext)
  (w : World) :
  exists c' w',
    NSM.resolve_identifiers nsm c w = (Ok c', w') /\ heap w' = heap w.
Proof.
  unfold NSM.resolve_identifiers. unfold bind at 1, get.
  destruct (truthy_ids _); [exists c, w; split; reflexivity|].
  destruct (get_remembered_identity_run nsm c w) as (ids & w' & Hrun & Hheap).
  unfold bind. rewrite Hrun.
  destruct (truthy_ids ids); eexists _, _; (split; [reflexivity|exact Hheap]).
Qed.

(** How create_subject ends: either resolve_session raised and the heap is
    as it was, or one subject was put at the first free address and saved,
    the save returning or raising. *)
Lemma create_subject_run (nsm : SecurityManager)
  (authc_token : option Token) (account_id : option Ids)
  (existing_subject : option loc) (subject_context : option SubjectContext)
  (w : World) (r : result loc) (w' : World) :
  NSM.create_subject nsm authc_token account_id existing_subject
    subject_context w = (r, w') ->
  (heap w' = heap w /\ exists e, r = Raise e)
  \/ exists subj,
       heap w' = <[fresh (dom (heap w)) := subj]> (heap w)
       /\ last (log w') = Some (Save (fresh (dom (heap w))) subj)
       /\ (r = Ok (fresh (dom (heap w))) \/ exists e, r = Raise e).
Proof.
  unfold NSM.create_subject.
  set (c0 := NSM.ensure_security_manager nsm _).
  unfold bind at 1.
  pose proof (resolve_session_heap nsm c0 w) as Hh1.
  destruct (NSM.resolve_session nsm c0 w) as [[c1|e] w1]; simpl in Hh1.
  2:{ intros [= <- <-]. left. split; [exact Hh1|eauto]. }
  unfold bind at 1.
  destruct (resolve_identifiers_ok nsm c1 w1) as (c2 & w2 & Hrun & Hh2).
  rewrite Hrun.
  unfold NSM.do_create_subject, NSM.save. run.
  rewrite Hh2, Hh1. rewrite lookup_total_insert_eq.
  destruct (store_save (subject_store nsm) _ _); simpl;
    intros [= <- <-]; right; eexists;
    (split; [reflexivity|]; split; [apply last_snoc|eauto]).
Qed.

Lemma create_subject_keeps_and_adds (nsm : SecurityManager)
  (authc_token : option Token) (account_id : option Ids)
  (existing_subject : option loc) (subject_context : option SubjectContext)
  (w : World) (r : result loc) (w' : World) :
  NSM.create_subject nsm authc_token account_id existing_subject
    subject_context w = (r, w') ->
  (forall k, is_Some (heap w !! k) -> heap w' !! k = heap w !! k)
  /\ (forall l,
        r = Ok l ->
        heap w !! l = None
        /\ exists subj,
             heap w' = <[l := subj]> (heap w)
             /\ last (log w') = Some (Save l subj)).
Proof.
  intros Hcreate.
  assert (Hfresh : heap w !! fresh (dom (heap w)) = None)
    by (apply not_elem_of_dom, is_fresh).
  destruct (create_subject_run _ _ _ _ _ _ _ _ Hcreate)
    as [[Hheap [e ->]]|(subj & Hheap & Hlast & Hr)].
  - split; [intros k _; rewrite Hheap; reflexivity|discriminate].
  - split.
    + intros k [x Hk]. rewrite Hheap. apply lookup_insert_ne. congruence.
    + intros l ->. destruct Hr as [[= ->]|[e He]]; [|discriminate].
      split; [exact Hfresh|]. exists subj. split; assumption.
Qed.

(** X19: create_subject builds a new object and leaves the others alone:
    whatever happens, every subject that was on the heap is unchanged; and
    when it returns a subject, that address was free before, holds the new
    subject now, and saving that subject was the last call made. *)
Theorem create_subject_allocates_fresh (nsm : SecurityManager)
  (authc_token : option Token) (account_id : option Ids)
  (existing_subject : option loc) (subject_context : option SubjectContext)
  (w : World) :
  exists r w',
    NSM.create_subject nsm authc_token account_id existing_subject
      subject_context w = (r, w')
    /\ (forall k, is_Some (heap w !! k) -> heap w' !! k = heap w !! k)
    /\ (forall l,
          r = Ok l ->
          heap w !! l = None
          /\ exists subj,
               heap w' = <[l := subj]> (heap w)
               /\ last (log w') = Some (Save l subj)).
Proof.
  destruct (NSM.create_subject nsm authc_token account_id existing_subject
              subject_context w) as [r w'] eqn:Hcreate.
  exists r, w'. split; [reflexivity|].
  exact (create_subject_keeps_and_adds _ _ _ _ _ _ _ _ Hcreate).
Qed.

Lemma nsm_on_successful_login_run (nsm : SecurityManager)
  (authc_token : option Token) (account_id : option Ids) (subject : loc)
  (w : World) :
  exists w',
    NSM.on_successful_login nsm authc_token account_id subject w = (Ok tt, w')
    /\ heap w' = heap w.
Proof.
  unfold NSM.on_successful_login, NSM.remember_me_successful_login.
  destruct (remember_me_manager nsm) as [rmm|];
    [|exists w; split; reflexivity].
  unfold try_except, swallow, ret.
  pose proof (rmm_on_successful_login_heap rmm subject authc_token account_id
                w) as Hheap.
  destruct (RMM.on_successful_login rmm subject authc_token account_id w)
    as [[[]|e] w1]; simpl in *; exists w1; split; try reflexivity;
    assumption.
Qed.

(** X20: a successful login.  When the authenticator returns an account
    id, login ends exactly as create_subject does on the world after the
    authenticator call: a remember-me failure cannot turn the login into a
    failure nor change any subject.  The subject that logged in and every
    other subject already on the heap are unchanged, and a returned subject
    is a new object at an address that was free. *)
Theorem login_success_is_create_subject (nsm : SecurityManager) (s : loc)
  (authc_token : option Token) (w : World) (account_id : option Ids) :
  authenticator_authenticate_account (authenticator nsm)
    (identifiers (heap w !!! s)) authc_token = Ok account_id ->
  let created :=
    NSM.create_subject nsm authc_token account_id (Some s) None
      (mkWorld (heap w)
         (log w ++ [Authenticate (identifiers (heap w !!! s)) authc_token])) in
  exists w2,
    NSM.login nsm (Some s) authc_token w = (fst created, w2)
    /\ heap w2 = heap (snd created)
    /\ (forall k, is_Some (heap w !! k) -> heap w2 !! k = heap w !! k)
    /\ (forall l, fst created = Ok l ->
                  heap w !! l = None /\ is_Some (heap w2 !! l)).
Proof.
  intros Hauth created.
  assert (Hlogin : NSM.login nsm (Some s) authc_token w =
            match created with
            | (Ok l, w1) =>
                match NSM.on_successful_login nsm authc_token account_id l w1
                with
                | (Ok _, w2) => (Ok l, w2)
                | (Raise e, w2) => (Raise e, w2)
                end
            | (Raise e, w1) => (Raise e, w1)
            end).
  { unfold NSM.login, NSM.call_authenticator. run. rewrite Hauth. simpl.
    fold created. destruct created as [[l|e] w1]; reflexivity. }
  rewrite Hlogin. clear Hlogin.
  destruct created as [r w1] eqn:Hcreate. subst created.
  destruct (create_subject_keeps_and_adds _ _ _ _ _ _ _ _ Hcreate)
    as (Hkeep & Hnew).
  simpl in Hkeep. destruct r as [l|e]; simpl.
  - destruct (nsm_on_successful_login_run nsm authc_token account_id l w1)
      as (w2 & Hrun & Hheap).
    rewrite Hrun. exists w2. split; [reflexivity|]. split; [exact Hheap|].
    split.
    + intros k Hk. rewrite Hheap. apply Hkeep. exact Hk.
    + intros l' [= <-].
      destruct (Hnew l eq_refl) as (Hfree & subj & Hheap1 & _).
      split; [exact Hfree|]. rewrite Hheap, Hheap1, lookup_insert_eq. eauto.
  - exists w1. split; [reflexivity|]. split; [reflexivity|].
    split; [exact Hkeep|discriminate].
Qed.

Import Examples.

(** Witness for X16: alice remembered and retrieved with the toy codec and
    cipher. *)
Lemma remembered_identity_round_trip_witness :
  log (snd (RMM.on_successful_login stocked_rmm 0 (Some remember_me_token)
              (Some ["alice"]) one_guest))
    = [ForgetIdentity (OfSubject 0);
       RememberEncryptedIdentity 0 [x80; x61; x6c; x69; x63; x65]]
  /\ forall w1,
       RMM.get_remembered_identifiers stocked_rmm anonymous_context w1 =
         (Ok (Some ["alice"]),
          mkWorld (heap w1)
            (log w1 ++ [GetRememberedEncryptedIdentity anonymous_context])).
Proof.
  refine (remembered_identity_round_trip stocked_rmm toy_serialization 0
            remember_me_token (Some ["alice"]) anonymous_context
            [x61; x6c; x69; x63; x65] [x80; x61; x6c; x69; x63; x65]
            one_guest _ _ _ _ _ _ _ _ _); try reflexivity.
  discriminate.
Defined.

(** Witness for X18: a rejected token with a remember-me manager in
    place. *)
Lemma login_failure_propagates_witness :
  NSM.login rejecting_manager (Some 0) None one_guest
  = (Raise IncorrectCredentialsException,
     mkWorld (heap one_guest)
       [Authenticate None None; ForgetIdentity (OfSubject 0)]).
Proof.
  refine (proj1 (login_failure_propagates rejecting_manager 0 None one_guest
                   IncorrectCredentialsException _ _)).
  - reflexivity.
  - discriminate.
Defined.

(** Witness for X20: alice logs in while the remember-me store refuses the
    write; the guest at address 0 stays as it was, alice is at address 1. *)
Lemma login_success_is_create_subject_witness :
  exists w2,
    NSM.login accepting_manager (Some 0) (Some remember_me_token) one_guest
      = (Ok 1, w2)
    /\ heap w2 !! 0 = Some guest
    /\ is_Some (heap w2 !! 1).
Proof.
  destruct (login_success_is_create_subject accepting_manager 0
              (Some remember_me_token) one_guest (Some ["alice"]) eq_refl)
    as (w2 & Hrun & _ & Hkeep & Hnew).
  exists w2. split; [exact Hrun|]. split.
  - apply (Hkeep 0). exists guest. reflexivity.
  - apply (Hnew 1). reflexivity.
Defined.

End MgtMore.
